(** * pulumi_pve: the Python resource bindings [Provider] and [storage.File]

    A shallow embedding of [sdk/python/pulumi_pve/provider.py] and
    [sdk/python/pulumi_pve/storage/file.py].  Both files are thin
    constructors: they validate their keyword arguments, fill a property
    bag and hand it to the resource constructor of the Pulumi host SDK.
    The embedding keeps that shape: Python values are a dynamic value
    type, exceptions and the host call are effects of a small
    state-and-error monad, and the host SDK is an interface the bindings
    are parametrised over. *)

From stdpp Require Import gmap strings list fin_maps.
From Stdlib Require Import ZArith.

#[local] Set Warnings "-register-all".
#[local] Open Scope string_scope.
#[local] Open Scope list_scope.

(** ** Python values *)

(** The record behind a [pulumi.ResourceOptions] instance, restricted to
    the attributes the bindings read or set: [opts.id], [opts.urn] and
    [additional_secret_outputs].  [V] is the type of dynamic values. *)
Record ResourceOptionsOf (V : Type) := ResourceOptions {
  ro_id : V;                                           (* Optional[Input[str]] *)
  ro_urn : option string;                              (* Optional[str] *)
  ro_additional_secret_outputs : option (list string)  (* Optional[List[str]] *)
}.
Arguments ResourceOptions {V} _ _ _.
Arguments ro_id {V} _.
Arguments ro_urn {V} _.
Arguments ro_additional_secret_outputs {V} _.

(** The values that travel through the constructors.  [VSecret v] is the
    result of [pulumi.Output.secret(v)]; [VObject cls d] is an instance of
    class [cls] whose [__dict__] is [d] (the property bags [ProviderArgs]
    and [FileArgs] are built this way, through [cls.__new__(cls)]). *)
Inductive PyVal : Type :=
| VNone
| VStr (s : string)
| VInt (z : Z)
| VBool (b : bool)
| VDict (items : list (string * PyVal))
| VSecret (v : PyVal)
| VObject (cls : string) (__dict__ : gmap string PyVal)
| VOpts (o : ResourceOptionsOf PyVal).

Abbreviation ResourceOptionsT := (ResourceOptionsOf PyVal).

(** [x is None] *)
Definition is_None (v : PyVal) : bool :=
  match v with VNone => true | _ => false end.

(** [isinstance(v, pulumi.ResourceOptions)] *)
Definition isinstance_ResourceOptions (v : PyVal) : bool :=
  match v with VOpts _ => true | _ => false end.

(** [isinstance(v, cls)] for the argument classes *)
Definition isinstance (v : PyVal) (cls : string) : bool :=
  match v with VObject c _ => String.eqb c cls | _ => false end.

(** [getattr(obj, f)] on an instance, through its [__dict__]. *)
Definition getattr (obj : PyVal) (f : string) : option PyVal :=
  match obj with
  | VObject _ d => d !! f
  | _ => None
  end.

(** [bool(opts.urn)]: [None] and the empty string are falsy. *)
Definition urn_truthy (o : ResourceOptionsT) : bool :=
  match ro_urn o with
  | Some s => negb (String.eqb s "")
  | None => false
  end.

(** [pulumi.Output.secret(v)] *)
Definition Output_secret (v : PyVal) : PyVal := VSecret v.

(** A value is in plaintext unless it is a secret output. *)
Definition is_secret (v : PyVal) : bool :=
  match v with VSecret _ => true | _ => false end.

(** [pulumi.ResourceOptions(id=id)] and
    [pulumi.ResourceOptions(additional_secret_outputs=names)]; every
    keyword that is not given defaults to [None]. *)
Definition ResourceOptions_id (id : PyVal) : ResourceOptionsT :=
  ResourceOptions id None None.
Definition ResourceOptions_additional_secret_outputs (names : list string)
  : ResourceOptionsT :=
  ResourceOptions VNone None (Some names).

(** The options object [Provider] merges into the options it forwards
    (provider.py line 150). *)
Definition secret_opts : PyVal :=
  VOpts (ResourceOptions_additional_secret_outputs ["pveToken"; "sshPass"]).

(** ** Exceptions, the host and the effect monad *)

(** The bindings, and the SDK's option merge, raise [TypeError] only.
    Whatever the host's resource constructor raises is opaque to the
    bindings and reaches the caller as a [HostError], whatever its Python
    class. *)
Inductive exn : Type :=
| TypeError (msg : string)
| HostError (detail : string).

(** The message of a missing-required-property error. *)
Definition missing (f : string) : exn :=
  TypeError ("Missing required property '" +:+ f +:+ "'").

(** The two base classes whose [__init__] the bindings call. *)
Inductive BaseClass : Type := ProviderResource | CustomResource.

(** The arguments of [super().__init__(t, resource_name, __props__, opts)]. *)
Record HostCall := mkHostCall {
  call_base : BaseClass;
  call_type : string;
  call_name : string;
  call_props : PyVal;
  call_opts : PyVal
}.

(** The host SDK as the bindings see it.
    - [merge] is [pulumi.ResourceOptions.merge];
    - [get_resource_opts_defaults] and [get_resource_args_opts] are the
      helpers of the package's [_utilities] module, which is not among
      the sources;
    - [Store] is the host's state store (the persisted output models),
      [Handle] is what a successful registration leaves in the resource,
      and [host_init] is the base class constructor: it may change the
      store, and it fails with an opaque detail or succeeds. *)
Class HostSDK := {
  merge : PyVal -> PyVal -> exn + PyVal;
  get_resource_opts_defaults : PyVal;
  get_resource_args_opts :
    string -> list PyVal -> list (string * PyVal) -> PyVal * PyVal;
  Store : Type;
  Handle : Type;
  host_init : HostCall -> Store -> (string + Handle) * Store
}.

Section Monad.
Context `{sdk : HostSDK}.

(** The world a constructor runs in: the host calls issued so far and the
    host's store. *)
Record World := mkWorld {
  trace : list HostCall;
  store : Store
}.

Definition M (A : Type) : Type := World -> (exn + A) * World.

Definition ret {A} (a : A) : M A := fun w => (inr a, w).

Definition bind {A B} (m : M A) (k : A -> M B) : M B :=
  fun w =>
    match m w with
    | (inl e, w') => (inl e, w')
    | (inr a, w') => k a w'
    end.

(** [raise e] *)
Definition raise {A} (e : exn) : M A := fun w => (inl e, w).

(** A call into SDK code that only computes (it may raise). *)
Definition lift {A} (r : exn + A) : M A := fun w => (r, w).

(** [if c: raise e] *)
Definition raise_if (c : bool) (e : exn) : M unit :=
  if c then raise e else ret tt.

(** [super().__init__(t, resource_name, __props__, opts)]: the call is
    recorded and the host runs. *)
Definition super_init (b : BaseClass) (t name : string) (props opts : PyVal)
  : M Handle :=
  fun w =>
    let c := mkHostCall b t name props opts in
    match host_init c (store w) with
    | (inl detail, s') => (inl (HostError detail), mkWorld (trace w ++ [c]) s')
    | (inr h, s') => (inr h, mkWorld (trace w ++ [c]) s')
    end.

(** The host calls a computation adds to the trace of [w]. *)
Definition issued {A} (m : M A) (w : World) : list HostCall :=
  drop (length (trace w)) (trace (snd (m w))).

(** A computation that never touches the world. *)
Definition silent {A} (m : M A) : Prop := forall w, snd (m w) = w.

(** A computation whose [TypeError]s all come with the world it started
    in. *)
Definition fails_early {A} (m : M A) : Prop :=
  forall w msg w', m w = (inl (TypeError msg), w') -> w' = w.
End Monad.

Notation "x <- c1 ;; c2" := (bind c1 (fun x => c2))
  (at level 100, c1 at next level, right associativity).
Notation "c1 ;;; c2" := (bind c1 (fun _ => c2))
  (at level 100, right associativity).

(** ** Python's call binding *)

(** Binding a call with positional [args] and keyword [kwargs] to the
    keyword-or-positional parameters [params], every one of which defaults
    to [None]: positional arguments fill the parameters in order, keywords
    fill them by name.  A surplus positional argument, an unknown keyword
    and a parameter given twice are [TypeError]s (the message texts
    abridge the interpreter's, which also names the called function and
    counts the arguments). *)
Fixpoint bind_positional (params : list string) (args : list PyVal)
  : exn + gmap string PyVal :=
  match args, params with
  | [], _ => inr ∅
  | _ :: _, [] => inl (TypeError "too many positional arguments")
  | a :: args', p :: params' =>
      match bind_positional params' args' with
      | inl e => inl e
      | inr b => inr (<[p := a]> b)
      end
  end.

Fixpoint bind_keywords (params : list string) (kwargs : list (string * PyVal))
    (b : gmap string PyVal) : exn + gmap string PyVal :=
  match kwargs with
  | [] => inr b
  | (k, v) :: kwargs' =>
      if negb (bool_decide (k ∈ params)) then
        inl (TypeError ("got an unexpected keyword argument '" +:+ k +:+ "'"))
      else match b !! k with
           | Some _ =>
               inl (TypeError ("got multiple values for argument '" +:+ k +:+ "'"))
           | None => bind_keywords params kwargs' (<[k := v]> b)
           end
  end.

Definition bind_arguments (params : list string) (args : list PyVal)
    (kwargs : list (string * PyVal)) : exn + gmap string PyVal :=
  match bind_positional params args with
  | inl e => inl e
  | inr b => bind_keywords params kwargs b
  end.

(** The value a bound parameter has in the callee (default [None]). *)
Definition param (b : gmap string PyVal) (p : string) : PyVal :=
  default VNone (b !! p).

(** [**obj.__dict__] *)
Definition dict_kwargs (obj : PyVal) : list (string * PyVal) :=
  match obj with
  | VObject _ d => map_to_list d
  | _ => []
  end.

(** ** [provider.py] *)

Module Provider.
Section WithSDK.
Context `{sdk : HostSDK}.

(** [Provider._internal_init] (lines 118-156). *)
Definition _internal_init (resource_name : string)
    (opts pve_token pve_url pve_user ssh_pass ssh_user __props__ : PyVal)
  : M Handle :=
  opts <- lift (merge get_resource_opts_defaults opts) ;;
  match opts with
  | VOpts o =>
      __props__ <-
        (if is_None (ro_id o) then
           raise_if (negb (is_None __props__))
             (TypeError "__props__ is only valid when passed in combination with a valid opts.id to get an existing resource") ;;;
           let d : gmap string PyVal := ∅ in
           raise_if (is_None pve_token && negb (urn_truthy o))
             (TypeError "Missing required property 'pve_token'") ;;;
           let d := <["pve_token" :=
                        if is_None pve_token then VNone
                        else Output_secret pve_token]> d in
           raise_if (is_None pve_url && negb (urn_truthy o))
             (TypeError "Missing required property 'pve_url'") ;;;
           let d := <["pve_url" := pve_url]> d in
           raise_if (is_None pve_user && negb (urn_truthy o))
             (TypeError "Missing required property 'pve_user'") ;;;
           let d := <["pve_user" := pve_user]> d in
           raise_if (is_None ssh_pass && negb (urn_truthy o))
             (TypeError "Missing required property 'ssh_pass'") ;;;
           let d := <["ssh_pass" :=
                        if is_None ssh_pass then VNone
                        else Output_secret ssh_pass]> d in
           raise_if (is_None ssh_user && negb (urn_truthy o))
             (TypeError "Missing required property 'ssh_user'") ;;;
           let d := <["ssh_user" := ssh_user]> d in
           ret (VObject "ProviderArgs" d)
         else ret __props__) ;;
      let secret_opts :=
        VOpts (ResourceOptions_additional_secret_outputs ["pveToken"; "sshPass"]) in
      opts <- lift (merge (VOpts o) secret_opts) ;;
      super_init ProviderResource "pve" resource_name __props__ opts
  | _ =>
      raise (TypeError "Expected resource options to be a ResourceOptions instance")
  end.

(** The parameters of [_internal_init] after [resource_name]. *)
Definition params : list string :=
  ["opts"; "pve_token"; "pve_url"; "pve_user"; "ssh_pass"; "ssh_user"; "__props__"].

(** [_internal_init(resource_name, *args, **kwargs)] *)
Definition call_internal_init (resource_name : string) (args : list PyVal)
    (kwargs : list (string * PyVal)) : M Handle :=
  b <- lift (bind_arguments params args kwargs) ;;
  _internal_init resource_name (param b "opts") (param b "pve_token")
    (param b "pve_url") (param b "pve_user") (param b "ssh_pass")
    (param b "ssh_user") (param b "__props__").

(** [Provider.__init__] (lines 111-116). *)
Definition __init__ (resource_name : string) (args : list PyVal)
    (kwargs : list (string * PyVal)) : M Handle :=
  let '(resource_args, opts) :=
    get_resource_args_opts "ProviderArgs" args kwargs in
  if negb (is_None resource_args) then
    call_internal_init resource_name [opts] (dict_kwargs resource_args)
  else
    call_internal_init resource_name args kwargs.
End WithSDK.
End Provider.

(** ** [storage/file.py] *)

Module File.
Section WithSDK.
Context `{sdk : HostSDK}.

(** [File._internal_init] (lines 111-139). *)
Definition _internal_init (resource_name : string)
    (opts content_type datastore_id source_raw __props__ : PyVal)
  : M Handle :=
  opts <- lift (merge get_resource_opts_defaults opts) ;;
  match opts with
  | VOpts o =>
      __props__ <-
        (if is_None (ro_id o) then
           raise_if (negb (is_None __props__))
             (TypeError "__props__ is only valid when passed in combination with a valid opts.id to get an existing resource") ;;;
           let d : gmap string PyVal := ∅ in
           raise_if (is_None content_type && negb (urn_truthy o))
             (TypeError "Missing required property 'content_type'") ;;;
           let d := <["content_type" := content_type]> d in
           raise_if (is_None datastore_id && negb (urn_truthy o))
             (TypeError "Missing required property 'datastore_id'") ;;;
           let d := <["datastore_id" := datastore_id]> d in
           raise_if (is_None source_raw && negb (urn_truthy o))
             (TypeError "Missing required property 'source_raw'") ;;;
           let d := <["source_raw" := source_raw]> d in
           ret (VObject "FileArgs" d)
         else ret __props__) ;;
      super_init CustomResource "pve:storage:File" resource_name __props__ (VOpts o)
  | _ =>
      raise (TypeError "Expected resource options to be a ResourceOptions instance")
  end.

(** The parameters of [_internal_init] after [resource_name]. *)
Definition params : list string :=
  ["opts"; "content_type"; "datastore_id"; "source_raw"; "__props__"].

(** [_internal_init(resource_name, *args, **kwargs)] *)
Definition call_internal_init (resource_name : string) (args : list PyVal)
    (kwargs : list (string * PyVal)) : M Handle :=
  b <- lift (bind_arguments params args kwargs) ;;
  _internal_init resource_name (param b "opts") (param b "content_type")
    (param b "datastore_id") (param b "source_raw") (param b "__props__").

(** [File.__init__] (lines 104-109). *)
Definition __init__ (resource_name : string) (args : list PyVal)
    (kwargs : list (string * PyVal)) : M Handle :=
  let '(resource_args, opts) :=
    get_resource_args_opts "FileArgs" args kwargs in
  if negb (is_None resource_args) then
    call_internal_init resource_name [opts] (dict_kwargs resource_args)
  else
    call_internal_init resource_name args kwargs.

(** [File.get] (lines 141-160). *)
Definition get (resource_name : string) (id opts : PyVal) : M Handle :=
  opts <- lift (merge opts (VOpts (ResourceOptions_id id))) ;;
  let d : gmap string PyVal := ∅ in
  let d := <["content_type" := VNone]> d in
  let d := <["datastore_id" := VNone]> d in
  let d := <["source_raw" := VNone]> d in
  __init__ resource_name [] [("opts", opts); ("__props__", VObject "FileArgs" d)].
End WithSDK.
End File.

(** ** The accessors the classes declare *)

(** A field of a class is exposed through a [@property] getter and, on the
    argument classes only, through a [@<field>.setter]. *)
Inductive Accessor : Type := Getter | Setter.

#[global] Instance Accessor_eq_dec : EqDecision Accessor.
Proof. solve_decision. Defined.

(** [FileArgs] (lines 37-71) and [File] (lines 162-184). *)
Definition FileArgs_accessors : list (string * list Accessor) :=
  [("content_type", [Getter; Setter]); ("datastore_id", [Getter; Setter]);
   ("source_raw", [Getter; Setter])].
Definition File_accessors : list (string * list Accessor) :=
  [("content_type", [Getter]); ("datastore_id", [Getter]);
   ("source_raw", [Getter])].

(** Does the class with accessor table [cls] expose [a] for [field]? *)
Definition exposes (cls : list (string * list Accessor)) (field : string)
    (a : Accessor) : bool :=
  match list_to_map (M := gmap string (list Accessor)) cls !! field with
  | Some l => bool_decide (a ∈ l)
  | None => false
  end.

(** ** The declared field types *)

(** The annotations of the constructors: [pulumi.Input[str]] for every
    field except [source_raw], which is an input of [FileSourceRawArgs]
    or of its dictionary form. *)
Inductive Schema : Type := SStr | SFileSourceRaw.

(** [v] has the shape [pulumi.Input[t]]: a value of the type or an output
    of one. *)
Fixpoint conforms (t : Schema) (v : PyVal) : bool :=
  match v with
  | VSecret v' => conforms t v'
  | VStr _ => match t with SStr => true | _ => false end
  | VDict _ => match t with SFileSourceRaw => true | _ => false end
  | VObject cls _ =>
      match t with
      | SFileSourceRaw => String.eqb cls "FileSourceRawArgs"
      | _ => false
      end
  | _ => false
  end.

Definition Provider_schema : list (string * Schema) :=
  [("pve_token", SStr); ("pve_url", SStr); ("pve_user", SStr);
   ("ssh_pass", SStr); ("ssh_user", SStr)].
Definition File_schema : list (string * Schema) :=
  [("content_type", SStr); ("datastore_id", SStr);
   ("source_raw", SFileSourceRaw)].

(** ** The host SDK's option merge *)

(** [pulumi.ResourceOptions.merge] as the Pulumi SDK documents it, on the
    three attributes of [ResourceOptionsOf]: a [None] argument stands for
    an empty options object, any other non-options argument is a
    [TypeError], scalars of [opts2] replace those of [opts1] unless they
    are [None], and list attributes are concatenated. *)
Definition _merge_lists {A} (dest source : option (list A)) : option (list A) :=
  match dest, source with
  | None, _ => source
  | _, None => dest
  | Some d, Some s => Some (d ++ s)
  end.

Definition merge_options (dest source : ResourceOptionsT) : ResourceOptionsT :=
  ResourceOptions
    (if is_None (ro_id source) then ro_id dest else ro_id source)
    (match ro_urn source with None => ro_urn dest | Some u => Some u end)
    (_merge_lists (ro_additional_secret_outputs dest)
                  (ro_additional_secret_outputs source)).

Definition ResourceOptions_merge (opts1 opts2 : PyVal) : exn + PyVal :=
  let opts1 := if is_None opts1 then VOpts (ResourceOptions VNone None None) else opts1 in
  let opts2 := if is_None opts2 then VOpts (ResourceOptions VNone None None) else opts2 in
  match opts1, opts2 with
  | VOpts dest, VOpts source => inr (VOpts (merge_options dest source))
  | VOpts _, _ => inl (TypeError "Expected opts2 to be a ResourceOptions instance")
  | _, _ => inl (TypeError "Expected opts1 to be a ResourceOptions instance")
  end.

(** A host SDK merges like the Pulumi SDK. *)
Definition merges_like_pulumi (sdk : HostSDK) : Prop :=
  forall opts1 opts2, @merge sdk opts1 opts2 = ResourceOptions_merge opts1 opts2.

(** Whatever the option merge raises is a [TypeError], as with the Pulumi
    SDK's merge. *)
Definition merge_raises_TypeError (sdk : HostSDK) : Prop :=
  forall opts1 opts2 e,
    @merge sdk opts1 opts2 = inl e -> exists msg, e = TypeError msg.

(** The helper hands a keyword-only call back as no argument object and
    the [opts] keyword. *)
Definition keyword_call_has_no_args (sdk : HostSDK) : Prop :=
  forall cls opts props,
    @get_resource_args_opts sdk cls [] [("opts", opts); ("__props__", props)]
    = (VNone, opts).

(** The [_utilities] helpers as the Pulumi code generator emits them.  The
    module is not among the sources: the bindings above take the helpers
    from [HostSDK], and this rendering only serves to run them. *)
Definition kwargs_get (kwargs : list (string * PyVal)) (k : string) : PyVal :=
  match list_find (fun kv => String.eqb (fst kv) k = true) kwargs with
  | Some (_, kv) => snd kv
  | None => VNone
  end.

Definition generated_get_resource_args_opts (resource_args_type : string)
    (args : list PyVal) (kwargs : list (string * PyVal)) : PyVal * PyVal :=
  let '(resource_args, args) :=
    match args with
    | a :: rest => if isinstance a resource_args_type then (a, rest) else (VNone, args)
    | [] => (VNone, args)
    end in
  let opts :=
    match args with
    | a :: _ => if isinstance_ResourceOptions a then a else VNone
    | [] => VNone
    end in
  let resource_args :=
    if is_None resource_args then
      let a := kwargs_get kwargs "args" in
      if isinstance a resource_args_type then a else VNone
    else resource_args in
  let opts := if is_None opts then kwargs_get kwargs "opts" else opts in
  (resource_args, opts).

(** A host that persists the property bag of every registration under the
    resource's name, and refuses an empty name. *)
Definition recording_host (c : HostCall) (s : gmap string PyVal)
  : (string + string) * gmap string PyVal :=
  if String.eqb (call_name c) "" then (inl "Missing resource name argument", s)
  else (inr (call_name c), <[call_name c := call_props c]> s).

(** The Pulumi SDK with the generated helpers and the recording host. *)
Definition pulumi_sdk : HostSDK := {|
  merge := ResourceOptions_merge;
  get_resource_opts_defaults := VOpts (ResourceOptions VNone None None);
  get_resource_args_opts := generated_get_resource_args_opts;
  Store := gmap string PyVal;
  Handle := string;
  host_init := recording_host
|}.

(** A concrete world: the recording host with one persisted resource. *)
Definition w_demo : @World pulumi_sdk :=
  @mkWorld pulumi_sdk [] (<["old" := VStr "kept"]> ∅ : gmap string PyVal).

(** ** The reconciliation decision *)

(** The provider's diff of desired against observed state is not among
    the binding sources; the data model and the decision follow sections
    3 and 4.1 of the specification. *)

(** Modelled from the spec: [source_raw{filename, data}] (section 3). *)
Record FileSourceRaw := mkFileSourceRaw { filename : string; data : string }.

(** Modelled from the spec: the File resource
    [{content_type, datastore_id, source_raw}] (section 3), as the input
    model and as the fields of the output model. *)
Record FileModel := mkFileModel {
  content_type : string;
  datastore_id : string;
  source_raw : FileSourceRaw
}.

(** Modelled from the spec: the output model, the fields as last observed
    together with the host-assigned identity (sections 2 and 3). *)
Record OutputModel := mkOutputModel {
  identity : string;
  observed : FileModel
}.

(** Modelled from the spec: the four actions of section 4.1. *)
Inductive Action : Type := Create | Update | Replace | NoChange.

#[global] Instance FileSourceRaw_eq_dec : EqDecision FileSourceRaw.
Proof. solve_decision. Defined.
#[global] Instance FileModel_eq_dec : EqDecision FileModel.
Proof. solve_decision. Defined.

(** Modelled from the spec: the Reconciliation Adapter's contract (section
    4.1).  No existing output model: Create.  An immutable field
    ([source_raw]) differs: Replace.  Only mutable fields differ: Update.
    All compared fields equal: NoChange. *)
Definition reconcile (desired : FileModel) (existing : option OutputModel)
  : Action :=
  match existing with
  | None => Create
  | Some om =>
      if negb (bool_decide (source_raw desired = source_raw (observed om))) then Replace
      else if negb (bool_decide (desired = observed om)) then Update
      else NoChange
  end.

(** ** Constructions *)

(** A call of one of the two [_internal_init] methods with its arguments. *)
Inductive Construction : Type :=
| ProviderInit (resource_name : string)
    (opts pve_token pve_url pve_user ssh_pass ssh_user __props__ : PyVal)
| FileInit (resource_name : string)
    (opts content_type datastore_id source_raw __props__ : PyVal).

Definition construct `{sdk : HostSDK} (k : Construction) : M Handle :=
  match k with
  | ProviderInit n opts tok url user pass suser props =>
      Provider._internal_init n opts tok url user pass suser props
  | FileInit n opts ct ds raw props =>
      File._internal_init n opts ct ds raw props
  end.

(** The [opts] and [__props__] arguments of a construction. *)
Definition opts_of (k : Construction) : PyVal :=
  match k with
  | ProviderInit _ opts _ _ _ _ _ _ => opts
  | FileInit _ opts _ _ _ _ => opts
  end.
Definition props_of (k : Construction) : PyVal :=
  match k with
  | ProviderInit _ _ _ _ _ _ _ props => props
  | FileInit _ _ _ _ _ props => props
  end.

(** The declared fields with the values passed for them, in the order
    [_internal_init] checks them. *)
Definition fields_of (k : Construction) : list (string * PyVal) :=
  match k with
  | ProviderInit _ _ tok url user pass suser _ =>
      [("pve_token", tok); ("pve_url", url); ("pve_user", user);
       ("ssh_pass", pass); ("ssh_user", suser)]
  | FileInit _ _ ct ds raw _ =>
      [("content_type", ct); ("datastore_id", ds); ("source_raw", raw)]
  end.

(** Every declared field of [k] was passed; none was. *)
Definition all_present (k : Construction) : Prop :=
  Forall (fun fv => snd fv <> VNone) (fields_of k).
Definition all_absent (k : Construction) : Prop :=
  Forall (fun fv => snd fv = VNone) (fields_of k).

(** The declared type of each field of a construction. *)
Definition schema_of (k : Construction) : list (string * Schema) :=
  match k with
  | ProviderInit _ _ _ _ _ _ _ _ => Provider_schema
  | FileInit _ _ _ _ _ _ => File_schema
  end.

(** Some field of [k] holds a value that is neither [None] nor of the
    declared shape. *)
Definition ill_shaped (k : Construction) : Prop :=
  exists i f v t,
    fields_of k !! i = Some (f, v) /\ schema_of k !! i = Some (f, t) /\
    is_None v = false /\ conforms t v = false.

(** The bag the create block leaves in [__props__] when none of its checks
    fires (provider.py lines 133-149, file.py lines 124-134). *)
Definition create_bag (k : Construction) : PyVal :=
  match k with
  | ProviderInit _ _ tok url user pass suser _ =>
      VObject "ProviderArgs"
        (<["ssh_user" := suser]>
           (<["ssh_pass" := if is_None pass then VNone else Output_secret pass]>
              (<["pve_user" := user]>
                 (<["pve_url" := url]>
                    (<["pve_token" := if is_None tok then VNone else Output_secret tok]>
                       ∅)))))
  | FileInit _ _ ct ds raw _ =>
      VObject "FileArgs"
        (<["source_raw" := raw]>
           (<["datastore_id" := ds]> (<["content_type" := ct]> ∅)))
  end.

(** The bag [File.get] builds (file.py lines 155-159). *)
Definition lookup_bag : PyVal :=
  VObject "FileArgs"
    (<["source_raw" := VNone]>
       (<["datastore_id" := VNone]> (<["content_type" := VNone]> ∅))).

(** The tail of [_internal_init]: the base class constructor is called
    with the bag [props]; [Provider] first merges the secret markers into
    the options (provider.py lines 150-156, file.py lines 135-139). *)
Definition registration `{sdk : HostSDK} (k : Construction)
    (o : ResourceOptionsT) (props : PyVal) : M Handle :=
  match k with
  | ProviderInit n _ _ _ _ _ _ _ =>
      opts <- lift (merge (VOpts o) secret_opts) ;;
      super_init ProviderResource "pve" n props opts
  | FileInit n _ _ _ _ _ =>
      super_init CustomResource "pve:storage:File" n props (VOpts o)
  end.

(** ** The argument classes *)

(** [pulumi.set(self, name, value)] and [pulumi.get(self, name)] on an
    instance of an input type: the value is kept in the instance's
    [__dict__] under the Python name (this is what lets [__init__] pass
    [**resource_args.__dict__] as keyword arguments); a name that was
    never set reads as [None]. *)
Definition pulumi_set (self : PyVal) (name : string) (value : PyVal) : PyVal :=
  match self with
  | VObject cls d => VObject cls (<[name := value]> d)
  | _ => self
  end.
Definition pulumi_get (self : PyVal) (name : string) : PyVal :=
  default VNone (getattr self name).

(** [ProviderArgs] (provider.py lines 19-79).  The five constructor
    arguments are keyword-only and have no default. *)
Module ProviderArgs.
Definition __init__ (pve_token pve_url pve_user ssh_pass ssh_user : PyVal) : PyVal :=
  let __self__ := VObject "ProviderArgs" ∅ in
  let __self__ := pulumi_set __self__ "pve_token" pve_token in
  let __self__ := pulumi_set __self__ "pve_url" pve_url in
  let __self__ := pulumi_set __self__ "pve_user" pve_user in
  let __self__ := pulumi_set __self__ "ssh_pass" ssh_pass in
  let __self__ := pulumi_set __self__ "ssh_user" ssh_user in
  __self__.

Definition pve_token (self : PyVal) : PyVal := pulumi_get self "pve_token".
Definition set_pve_token (self value : PyVal) : PyVal :=
  pulumi_set self "pve_token" value.
Definition pve_url (self : PyVal) : PyVal := pulumi_get self "pve_url".
Definition set_pve_url (self value : PyVal) : PyVal :=
  pulumi_set self "pve_url" value.
Definition pve_user (self : PyVal) : PyVal := pulumi_get self "pve_user".
Definition set_pve_user (self value : PyVal) : PyVal :=
  pulumi_set self "pve_user" value.
Definition ssh_pass (self : PyVal) : PyVal := pulumi_get self "ssh_pass".
Definition set_ssh_pass (self value : PyVal) : PyVal :=
  pulumi_set self "ssh_pass" value.
Definition ssh_user (self : PyVal) : PyVal := pulumi_get self "ssh_user".
Definition set_ssh_user (self value : PyVal) : PyVal :=
  pulumi_set self "ssh_user" value.
End ProviderArgs.

(** [FileArgs] (file.py lines 21-71). *)
Module FileArgs.
Definition __init__ (content_type datastore_id source_raw : PyVal) : PyVal :=
  let __self__ := VObject "FileArgs" ∅ in
  let __self__ := pulumi_set __self__ "content_type" content_type in
  let __self__ := pulumi_set __self__ "datastore_id" datastore_id in
  let __self__ := pulumi_set __self__ "source_raw" source_raw in
  __self__.

Definition content_type (self : PyVal) : PyVal := pulumi_get self "content_type".
Definition set_content_type (self value : PyVal) : PyVal :=
  pulumi_set self "content_type" value.
Definition datastore_id (self : PyVal) : PyVal := pulumi_get self "datastore_id".
Definition set_datastore_id (self value : PyVal) : PyVal :=
  pulumi_set self "datastore_id" value.
Definition source_raw (self : PyVal) : PyVal := pulumi_get self "source_raw".
Definition set_source_raw (self value : PyVal) : PyVal :=
  pulumi_set self "source_raw" value.
End FileArgs.

(** ** The public entry points *)

(** What the bindings need of the absent [get_resource_args_opts]: a call
    with an argument object and options is split into the two, and a call
    by keywords without an [args] keyword has no argument object. *)
Definition args_object_is_recognised (sdk : HostSDK) : Prop :=
  forall cls d opts,
    opts = VNone \/ isinstance_ResourceOptions opts = true ->
    @get_resource_args_opts sdk cls [VObject cls d; opts] [] = (VObject cls d, opts).
Definition keyword_call_is_passed_on (sdk : HostSDK) : Prop :=
  forall cls kwargs,
    kwargs_get kwargs "args" = VNone ->
    @get_resource_args_opts sdk cls [] kwargs = (VNone, kwargs_get kwargs "opts").

(** The options [merge] works on for an argument that is [None] or an
    options object. *)
Definition options_or_empty (opts : PyVal) : ResourceOptionsT :=
  match opts with
  | VOpts o => o
  | _ => ResourceOptions VNone None None
  end.

(** A call of one of the three public entry points. *)
Inductive PublicCall : Type :=
| NewProvider (resource_name : string) (args : list PyVal)
    (kwargs : list (string * PyVal))
| NewFile (resource_name : string) (args : list PyVal)
    (kwargs : list (string * PyVal))
| GetFile (resource_name : string) (id opts : PyVal).

Definition enter `{sdk : HostSDK} (p : PublicCall) : M Handle :=
  match p with
  | NewProvider n args kwargs => Provider.__init__ n args kwargs
  | NewFile n args kwargs => File.__init__ n args kwargs
  | GetFile n id opts => File.get n id opts
  end.

(** The base class, the type token and the name an entry point hands to
    the host (provider.py lines 152-156, file.py lines 135-139). *)
Definition base_of (p : PublicCall) : BaseClass :=
  match p with
  | NewProvider _ _ _ => ProviderResource
  | _ => CustomResource
  end.
Definition token_of (p : PublicCall) : string :=
  match p with
  | NewProvider _ _ _ => "pve"
  | _ => "pve:storage:File"
  end.
Definition name_of (p : PublicCall) : string :=
  match p with
  | NewProvider n _ _ => n
  | NewFile n _ _ => n
  | GetFile n _ _ => n
  end.

(** A computation that either raises in the world it started in or is a
    single call of the base class constructor [b] with token [t] and
    name [n]. *)
Definition one_shot `{sdk : HostSDK} (b : BaseClass) (t n : string)
    (m : M Handle) : Prop :=
  forall w,
    (exists e, m w = (inl e, w)) \/
    (exists props opts, m w = super_init b t n props opts w).

(** ** Basic facts about values and the monad *)

Lemma not_None_is_None (v : PyVal) : v <> VNone -> is_None v = false.
Proof. destruct v; [congruence | reflexivity ..]. Qed.

Section MonadFacts.
Context `{sdk : HostSDK}.

Lemma issued_nothing {A} (m : M A) (w : World) :
  snd (m w) = w -> issued m w = [].
Proof.
  intros Hw. unfold issued. rewrite Hw. apply drop_all.
Qed.

Lemma super_init_trace b t n props opts w :
  trace (snd (super_init b t n props opts w)) =
  trace w ++ [mkHostCall b t n props opts].
Proof.
  unfold super_init. destruct (host_init _ _) as [[detail | h] s']; reflexivity.
Qed.

Lemma issued_super_init b t n props opts w :
  issued (super_init b t n props opts) w = [mkHostCall b t n props opts].
Proof.
  unfold issued. rewrite super_init_trace. apply drop_app_length.
Qed.

(** The host constructor never yields a [TypeError]. *)
Lemma super_init_not_TypeError b t n props opts w msg w' :
  super_init b t n props opts w <> (inl (TypeError msg), w').
Proof.
  unfold super_init. destruct (host_init _ _) as [[detail | h] s']; congruence.
Qed.

Lemma bind_lift_inr {A B} (x : A) (k : A -> M B) w :
  (a <- lift (inr x) ;; k a) w = k x w.
Proof. reflexivity. Qed.

Lemma bind_lift_inl {A B} (e : exn) (k : A -> M B) w :
  (a <- lift (inl e) ;; k a) w = (inl e, w).
Proof. reflexivity. Qed.

Lemma issued_bind_lift_inr {A B} (x : A) (k : A -> M B) w :
  issued (a <- lift (inr x) ;; k a) w = issued (k x) w.
Proof. reflexivity. Qed.

Lemma issued_bind_lift_inl {A B} (e : exn) (k : A -> M B) w :
  issued (a <- lift (inl e) ;; k a) w = [].
Proof. apply issued_nothing. reflexivity. Qed.

Lemma silent_ret {A} (a : A) : silent (ret a).
Proof. intros w. reflexivity. Qed.

Lemma silent_raise {A} (e : exn) : silent (@raise _ A e).
Proof. intros w. reflexivity. Qed.

Lemma silent_lift {A} (r : exn + A) : silent (lift r).
Proof. intros w. reflexivity. Qed.

Lemma silent_raise_if c e : silent (raise_if c e).
Proof. intros w. destruct c; reflexivity. Qed.

Lemma silent_bind {A B} (m : M A) (k : A -> M B) :
  silent m -> (forall a, silent (k a)) -> silent (bind m k).
Proof.
  intros Hm Hk w. unfold bind. specialize (Hm w).
  destruct (m w) as [[e | a] w1]; simpl in Hm; subst w1; [reflexivity | apply Hk].
Qed.

Lemma fails_early_silent {A} (m : M A) : silent m -> fails_early m.
Proof.
  intros Hm w msg w' Hrun. specialize (Hm w). rewrite Hrun in Hm.
  exact Hm.
Qed.

Lemma fails_early_super_init b t n props opts :
  fails_early (super_init b t n props opts).
Proof.
  intros w msg w' Hrun. exfalso.
  exact (super_init_not_TypeError _ _ _ _ _ _ _ _ Hrun).
Qed.

Lemma fails_early_bind {A B} (m : M A) (k : A -> M B) :
  silent m -> (forall a, fails_early (k a)) -> fails_early (bind m k).
Proof.
  intros Hm Hk w msg w' Hrun. unfold bind in Hrun. specialize (Hm w).
  destruct (m w) as [[e | a] w1]; simpl in Hm; subst w1.
  - congruence.
  - exact (Hk a w msg w' Hrun).
Qed.

(** After a silent prefix, what is issued is issued by the rest. *)
Lemma issued_bind_silent {A B} (m : M A) (k : A -> M B) (w : World) (c : HostCall) :
  silent m -> c ∈ issued (bind m k) w -> exists a, c ∈ issued (k a) w.
Proof.
  intros Hm Hc. unfold issued, bind in Hc. specialize (Hm w).
  destruct (m w) as [[e | a] w1]; simpl in Hm; subst w1.
  - simpl in Hc. rewrite drop_all in Hc. apply elem_of_nil in Hc. destruct Hc.
  - exists a. exact Hc.
Qed.
End MonadFacts.

(** Closes a goal whose hypothesis [Hc] says that a call was issued by a
    computation that evaluates to a raise. *)
Ltac nothing_issued Hc :=
  rewrite issued_nothing in Hc by reflexivity;
  apply elem_of_nil in Hc; destruct Hc.

(** Rewrites [is_None v] to [false] for every field [v] that a hypothesis
    [Hbefore] places before the absent one. *)
Ltac present_before Hbefore :=
  repeat match goal with
  | |- context [is_None ?v] =>
      is_var v;
      first
        [ rewrite (not_None_is_None v) by (eapply (Hbefore 0 _ v); [lia | reflexivity])
        | rewrite (not_None_is_None v) by (eapply (Hbefore 1 _ v); [lia | reflexivity])
        | rewrite (not_None_is_None v) by (eapply (Hbefore 2 _ v); [lia | reflexivity])
        | rewrite (not_None_is_None v) by (eapply (Hbefore 3 _ v); [lia | reflexivity]) ]
  end.

(** Splits [Hall : all_present k] into one fact per field and rewrites the
    [is_None] tests of the goal with them. *)
Ltac fields_present Hall :=
  unfold all_present in Hall; simpl in Hall;
  repeat match goal with
  | H : Forall _ (_ :: _) |- _ =>
      let Hv := fresh "Hv" in
      apply Forall_cons in H; destruct H as [Hv H]; simpl in Hv;
      apply not_None_is_None in Hv; try rewrite Hv
  end.

(** Splits [Habsent : all_absent k] and substitutes [None] for the fields. *)
Ltac fields_absent Habsent :=
  unfold all_absent in Habsent; simpl in Habsent;
  repeat match goal with
  | H : Forall _ (_ :: _) |- _ =>
      let Hv := fresh "Hv" in
      apply Forall_cons in H; destruct H as [Hv H]; simpl in Hv; subst
  end.

(** ** The paths through [_internal_init] *)

Section Paths.
Context `{sdk : HostSDK}.

(** The create block only tests and raises. *)
Lemma Provider_bag_silent (resource_name : string) (o : ResourceOptionsT)
    (opts pve_token pve_url pve_user ssh_pass ssh_user __props__ : PyVal) :
  silent
    (if is_None (ro_id o) then
       raise_if (negb (is_None __props__))
         (TypeError "__props__ is only valid when passed in combination with a valid opts.id to get an existing resource") ;;;
       raise_if (is_None pve_token && negb (urn_truthy o))
         (TypeError "Missing required property 'pve_token'") ;;;
       raise_if (is_None pve_url && negb (urn_truthy o))
         (TypeError "Missing required property 'pve_url'") ;;;
       raise_if (is_None pve_user && negb (urn_truthy o))
         (TypeError "Missing required property 'pve_user'") ;;;
       raise_if (is_None ssh_pass && negb (urn_truthy o))
         (TypeError "Missing required property 'ssh_pass'") ;;;
       raise_if (is_None ssh_user && negb (urn_truthy o))
         (TypeError "Missing required property 'ssh_user'") ;;;
       ret (create_bag (ProviderInit resource_name opts pve_token pve_url
                          pve_user ssh_pass ssh_user __props__))
     else ret __props__).
Proof.
  destruct (is_None (ro_id o)); [| apply silent_ret].
  repeat (apply silent_bind; [apply silent_raise_if | intros _]).
  apply silent_ret.
Qed.

Lemma File_bag_silent (resource_name : string) (o : ResourceOptionsT)
    (opts content_type datastore_id source_raw __props__ : PyVal) :
  silent
    (if is_None (ro_id o) then
       raise_if (negb (is_None __props__))
         (TypeError "__props__ is only valid when passed in combination with a valid opts.id to get an existing resource") ;;;
       raise_if (is_None content_type && negb (urn_truthy o))
         (TypeError "Missing required property 'content_type'") ;;;
       raise_if (is_None datastore_id && negb (urn_truthy o))
         (TypeError "Missing required property 'datastore_id'") ;;;
       raise_if (is_None source_raw && negb (urn_truthy o))
         (TypeError "Missing required property 'source_raw'") ;;;
       ret (create_bag (FileInit resource_name opts content_type datastore_id
                          source_raw __props__))
     else ret __props__).
Proof.
  destruct (is_None (ro_id o)); [| apply silent_ret].
  repeat (apply silent_bind; [apply silent_raise_if | intros _]).
  apply silent_ret.
Qed.

Lemma Provider_fails_early n opts tok url user pass suser props :
  fails_early (Provider._internal_init n opts tok url user pass suser props).
Proof.
  unfold Provider._internal_init.
  apply fails_early_bind; [apply silent_lift | intros merged].
  destruct merged as [| | | | | | | o]; try (apply fails_early_silent, silent_raise).
  apply fails_early_bind.
  - exact (Provider_bag_silent n o opts tok url user pass suser props).
  - intros bag. apply fails_early_bind; [apply silent_lift | intros final].
    apply fails_early_super_init.
Qed.

Lemma File_fails_early n opts ct ds raw props :
  fails_early (File._internal_init n opts ct ds raw props).
Proof.
  unfold File._internal_init.
  apply fails_early_bind; [apply silent_lift | intros merged].
  destruct merged as [| | | | | | | o]; try (apply fails_early_silent, silent_raise).
  apply fails_early_bind.
  - exact (File_bag_silent n o opts ct ds raw props).
  - intros bag. apply fails_early_super_init.
Qed.

Lemma construct_fails_early k : fails_early (construct k).
Proof.
  destruct k; [apply Provider_fails_early | apply File_fails_early].
Qed.

(** The same holds one level up, for [__init__] and [File.get]: an
    argument that cannot be bound is a [TypeError] before any call. *)
Lemma Provider_init_fails_early n args kwargs :
  fails_early (Provider.__init__ n args kwargs).
Proof.
  unfold Provider.__init__, Provider.call_internal_init.
  destruct (get_resource_args_opts _ _ _) as [resource_args opts].
  destruct (negb (is_None resource_args));
    (apply fails_early_bind; [apply silent_lift | intros b; apply Provider_fails_early]).
Qed.

Lemma File_init_fails_early n args kwargs :
  fails_early (File.__init__ n args kwargs).
Proof.
  unfold File.__init__, File.call_internal_init.
  destruct (get_resource_args_opts _ _ _) as [resource_args opts].
  destruct (negb (is_None resource_args));
    (apply fails_early_bind; [apply silent_lift | intros b; apply File_fails_early]).
Qed.

Lemma File_get_fails_early n id opts : fails_early (File.get n id opts).
Proof.
  unfold File.get.
  apply fails_early_bind; [apply silent_lift | intros merged].
  apply File_init_fails_early.
Qed.

(** The create block without a failing check: the fields are all there,
    or the options carry a urn. *)
Lemma construct_create k o w :
  merge get_resource_opts_defaults (opts_of k) = inr (VOpts o) ->
  is_None (ro_id o) = true ->
  props_of k = VNone ->
  all_present k \/ urn_truthy o = true ->
  construct k w = registration k o (create_bag k) w.
Proof.
  intros Hmerge Hid Hprops Hok.
  destruct k; simpl in Hmerge, Hprops; subst;
    unfold construct, registration, create_bag,
      Provider._internal_init, File._internal_init;
    rewrite Hmerge, bind_lift_inr, Hid.
  - destruct Hok as [Hall | Hurn].
    + fields_present Hall. reflexivity.
    + rewrite Hurn. cbn [negb andb]. rewrite !andb_false_r. reflexivity.
  - destruct Hok as [Hall | Hurn].
    + fields_present Hall. reflexivity.
    + rewrite Hurn. cbn [negb andb]. rewrite !andb_false_r. reflexivity.
Qed.

(** A required field is absent at create time. *)
Lemma construct_missing_field k o i f w :
  merge get_resource_opts_defaults (opts_of k) = inr (VOpts o) ->
  is_None (ro_id o) = true ->
  urn_truthy o = false ->
  props_of k = VNone ->
  fields_of k !! i = Some (f, VNone) ->
  (forall j g v, j < i -> fields_of k !! j = Some (g, v) -> v <> VNone) ->
  construct k w = (inl (missing f), w).
Proof.
  intros Hmerge Hid Hurn Hprops Hf Hbefore.
  destruct k; simpl in Hmerge, Hprops, Hf, Hbefore; subst;
    unfold construct, Provider._internal_init, File._internal_init;
    rewrite Hmerge, bind_lift_inr, Hid, Hurn.
  - destruct i as [| [| [| [| [| i]]]]]; simpl in Hf; try discriminate;
      injection Hf as <- ->; present_before Hbefore; reflexivity.
  - destruct i as [| [| [| i]]]; simpl in Hf; try discriminate;
      injection Hf as <- ->; present_before Hbefore; reflexivity.
Qed.

(** A [__props__] bag without an id. *)
Lemma construct_props_without_id k o w :
  merge get_resource_opts_defaults (opts_of k) = inr (VOpts o) ->
  is_None (ro_id o) = true ->
  props_of k <> VNone ->
  construct k w =
    (inl (TypeError "__props__ is only valid when passed in combination with a valid opts.id to get an existing resource"), w).
Proof.
  intros Hmerge Hid Hprops. apply not_None_is_None in Hprops.
  destruct k; simpl in Hmerge, Hprops;
    unfold construct, Provider._internal_init, File._internal_init;
    rewrite Hmerge, bind_lift_inr, Hid, Hprops; reflexivity.
Qed.

(** The lookup path: with an id the create block is skipped. *)
Lemma construct_lookup k o w :
  merge get_resource_opts_defaults (opts_of k) = inr (VOpts o) ->
  is_None (ro_id o) = false ->
  construct k w = registration k o (props_of k) w.
Proof.
  intros Hmerge Hid.
  destruct k; simpl in Hmerge;
    unfold construct, registration, Provider._internal_init, File._internal_init;
    rewrite Hmerge, bind_lift_inr, Hid; reflexivity.
Qed.

(** Options that are not a [ResourceOptions] instance. *)
Lemma construct_bad_options k v w :
  merge get_resource_opts_defaults (opts_of k) = inr v ->
  isinstance_ResourceOptions v = false ->
  construct k w =
    (inl (TypeError "Expected resource options to be a ResourceOptions instance"), w).
Proof.
  intros Hmerge Hv.
  destruct k; simpl in Hmerge;
    unfold construct, Provider._internal_init, File._internal_init;
    rewrite Hmerge, bind_lift_inr; destruct v; try discriminate; reflexivity.
Qed.

(** What a registration issues: at most one call, carrying the bag. *)
Lemma issued_registration k o props w c :
  c ∈ issued (registration k o props) w ->
  call_props c = props /\
  match k with
  | ProviderInit n _ _ _ _ _ _ _ =>
      call_base c = ProviderResource /\ call_type c = "pve" /\ call_name c = n /\
      merge (VOpts o) secret_opts = inr (call_opts c)
  | FileInit n _ _ _ _ _ =>
      call_base c = CustomResource /\ call_type c = "pve:storage:File" /\
      call_name c = n /\ call_opts c = VOpts o
  end.
Proof.
  destruct k; unfold registration.
  - destruct (merge (VOpts o) secret_opts) as [e | final] eqn:Hm.
    + rewrite issued_bind_lift_inl.
      intros Hc. apply elem_of_nil in Hc. destruct Hc.
    + rewrite issued_bind_lift_inr, issued_super_init.
      intros Hc. apply list_elem_of_singleton in Hc. subst c. simpl. auto.
  - rewrite issued_super_init.
    intros Hc. apply list_elem_of_singleton in Hc. subst c. simpl. auto.
Qed.

(** A registration whose option merge does not raise issues exactly one
    call and never a [TypeError]. *)
Lemma registration_reaches_host (k : Construction) (o : ResourceOptionsT)
    (props : PyVal) (w : World) :
  (exists final, merge (VOpts o) secret_opts = inr final) ->
  (exists c, issued (registration k o props) w = [c] /\ call_props c = props) /\
  (forall msg w', registration k o props w <> (inl (TypeError msg), w')).
Proof.
  intros [final Hfinal].
  destruct k; unfold registration.
  - rewrite Hfinal. split.
    + rewrite issued_bind_lift_inr, issued_super_init. eexists. split; reflexivity.
    + intros msg w'. rewrite bind_lift_inr. apply super_init_not_TypeError.
  - split.
    + rewrite issued_super_init. eexists. split; reflexivity.
    + intros msg w'. apply super_init_not_TypeError.
Qed.

(** The Pulumi merge appends the secret markers. *)
Lemma merge_secret_opts (o : ResourceOptionsT) :
  merges_like_pulumi sdk ->
  merge (VOpts o) secret_opts =
    inr (VOpts (ResourceOptions (ro_id o) (ro_urn o)
                  (Some (default [] (ro_additional_secret_outputs o)
                           ++ ["pveToken"; "sshPass"])))).
Proof.
  intros Hsdk. rewrite Hsdk. unfold ResourceOptions_merge, secret_opts, merge_options.
  simpl. destruct (ro_additional_secret_outputs o); reflexivity.
Qed.

(** With the Pulumi SDK's merge the guard on the merged options is never
    reached: options of the wrong type are already a [TypeError] of the
    merge, again before any host call. *)
Lemma pulumi_rejects_bad_options (k : Construction) (w : World) :
  merges_like_pulumi sdk ->
  (exists d, get_resource_opts_defaults = VOpts d) ->
  is_None (opts_of k) = false ->
  isinstance_ResourceOptions (opts_of k) = false ->
  construct k w =
    (inl (TypeError "Expected opts2 to be a ResourceOptions instance"), w).
Proof.
  intros Hsdk [d Hd] Hnone Hinst.
  assert (merge get_resource_opts_defaults (opts_of k) =
          inl (TypeError "Expected opts2 to be a ResourceOptions instance")) as Hmerge.
  { rewrite Hsdk, Hd. unfold ResourceOptions_merge. simpl. rewrite Hnone.
    destruct (opts_of k); try discriminate; reflexivity. }
  destruct k; simpl in Hmerge;
    unfold construct, Provider._internal_init, File._internal_init;
    rewrite Hmerge; reflexivity.
Qed.
End Paths.

Lemma pulumi_sdk_merges_like_pulumi : merges_like_pulumi pulumi_sdk.
Proof. intros opts1 opts2. reflexivity. Qed.

Lemma pulumi_sdk_keyword_call : keyword_call_has_no_args pulumi_sdk.
Proof. intros cls opts props. reflexivity. Qed.

Lemma ResourceOptions_merge_raises_TypeError (opts1 opts2 : PyVal) (e : exn) :
  ResourceOptions_merge opts1 opts2 = inl e -> exists msg, e = TypeError msg.
Proof.
  unfold ResourceOptions_merge.
  destruct opts1, opts2; simpl; intros Hmerge; try discriminate;
    injection Hmerge as <-; eexists; reflexivity.
Qed.

Lemma pulumi_sdk_merge_raises_TypeError : merge_raises_TypeError pulumi_sdk.
Proof.
  intros opts1 opts2 e. apply ResourceOptions_merge_raises_TypeError.
Qed.

(** The bag of the create block holds every input that was passed, as it
    is or wrapped as a secret. *)
Lemma create_bag_holds_inputs (k : Construction) (i : nat) (f : string) (v : PyVal) :
  all_present k ->
  fields_of k !! i = Some (f, v) ->
  getattr (create_bag k) f = Some v \/
  getattr (create_bag k) f = Some (Output_secret v).
Proof.
  intros Hall Hf. destruct k; simpl in Hf.
  - unfold all_present in Hall. simpl in Hall.
    repeat match goal with
    | H : Forall _ (_ :: _) |- _ =>
        let Hv := fresh "Hv" in
        apply Forall_cons in H; destruct H as [Hv H]; simpl in Hv;
        apply not_None_is_None in Hv
    end.
    destruct i as [| [| [| [| [| i]]]]]; simpl in Hf; try discriminate;
      injection Hf as <- <-; unfold create_bag, getattr;
      repeat match goal with Hv : is_None _ = false |- _ => rewrite Hv; clear Hv end;
      first [left; reflexivity | right; reflexivity].
  - destruct i as [| [| [| i]]]; simpl in Hf; try discriminate;
      injection Hf as <- <-; left; reflexivity.
Qed.

(** ** The claims *)

(** C1.  On the create path of [Provider] (the merged options have no id
    and no urn) every call that reaches the host carries a [ProviderArgs]
    bag in which the secret-marked fields [pve_token] and [ssh_pass] are
    the inputs wrapped by [Output.secret], so neither is in plaintext,
    while [pve_url], [pve_user] and [ssh_user] are the inputs as passed. *)
Theorem provider_create_wraps_secrets `{sdk : HostSDK}
    (resource_name : string)
    (opts pve_token pve_url pve_user ssh_pass ssh_user __props__ : PyVal)
    (o : ResourceOptionsT) (w : World) (c : HostCall) :
  merge get_resource_opts_defaults opts = inr (VOpts o) ->
  is_None (ro_id o) = true ->
  urn_truthy o = false ->
  c ∈ issued (Provider._internal_init resource_name opts pve_token pve_url
                pve_user ssh_pass ssh_user __props__) w ->
  exists d : gmap string PyVal,
    call_props c = VObject "ProviderArgs" d /\
    d !! "pve_token" = Some (Output_secret pve_token) /\
    d !! "ssh_pass" = Some (Output_secret ssh_pass) /\
    d !! "pve_url" = Some pve_url /\
    d !! "pve_user" = Some pve_user /\
    d !! "ssh_user" = Some ssh_user /\
    (forall f v, f ∈ ["pve_token"; "ssh_pass"] -> d !! f = Some v -> is_secret v = true).
Proof.
  intros Hmerge Hid Hurn Hc.
  unfold Provider._internal_init in Hc.
  rewrite Hmerge, issued_bind_lift_inr, Hid, Hurn in Hc.
  destruct (is_None __props__); [| nothing_issued Hc].
  destruct (is_None pve_token); [nothing_issued Hc |].
  destruct (is_None pve_url); [nothing_issued Hc |].
  destruct (is_None pve_user); [nothing_issued Hc |].
  destruct (is_None ssh_pass); [nothing_issued Hc |].
  destruct (is_None ssh_user); [nothing_issued Hc |].
  apply (issued_registration
           (ProviderInit resource_name opts pve_token pve_url pve_user
              ssh_pass ssh_user __props__) o) in Hc.
  destruct Hc as [Hprops _].
  eexists. split; [exact Hprops |].
  repeat split; try reflexivity.
  intros f v Hf Hv.
  apply elem_of_cons in Hf as [-> | Hf];
    [| apply list_elem_of_singleton in Hf as ->];
    vm_compute in Hv; injection Hv as <-; reflexivity.
Qed.

Lemma provider_create_wraps_secrets_witness :
  let c := mkHostCall ProviderResource "pve" "p"
             (VObject "ProviderArgs"
                (<["ssh_user" := VStr "root"]>
                   (<["ssh_pass" := VSecret (VStr "pw")]>
                      (<["pve_user" := VStr "root@pam"]>
                         (<["pve_url" := VStr "https://pve:8006"]>
                            (<["pve_token" := VSecret (VStr "tok")]> ∅))))))
             (VOpts (ResourceOptions VNone None (Some ["pveToken"; "sshPass"]))) in
  exists d : gmap string PyVal,
    call_props c = VObject "ProviderArgs" d /\
    d !! "pve_token" = Some (Output_secret (VStr "tok")) /\
    d !! "ssh_pass" = Some (Output_secret (VStr "pw")) /\
    d !! "pve_url" = Some (VStr "https://pve:8006") /\
    d !! "pve_user" = Some (VStr "root@pam") /\
    d !! "ssh_user" = Some (VStr "root") /\
    (forall f v, f ∈ ["pve_token"; "ssh_pass"] -> d !! f = Some v -> is_secret v = true).
Proof.
  intros c.
  apply (@provider_create_wraps_secrets pulumi_sdk "p" VNone (VStr "tok")
           (VStr "https://pve:8006") (VStr "root@pam") (VStr "pw") (VStr "root")
           VNone (ResourceOptions VNone None None) w_demo c).
  - reflexivity.
  - reflexivity.
  - reflexivity.
  - vm_compute. apply list_elem_of_here.
Defined.

(** C2.  At create time (the merged options have no id and no urn, and no
    [__props__] bag is passed) a construction of either resource in which
    a required field is absent, every field checked before it being
    present, fails with the missing-required-property error that names
    that field, in the world it started in: no call to the host is issued.
    This covers every construction with exactly one field absent. *)
Theorem create_requires_every_field `{sdk : HostSDK}
    (k : Construction) (o : ResourceOptionsT) (i : nat) (f : string) (w : World) :
  merge get_resource_opts_defaults (opts_of k) = inr (VOpts o) ->
  is_None (ro_id o) = true ->
  urn_truthy o = false ->
  props_of k = VNone ->
  fields_of k !! i = Some (f, VNone) ->
  (forall j g v, j < i -> fields_of k !! j = Some (g, v) -> v <> VNone) ->
  construct k w = (inl (missing f), w) /\ issued (construct k) w = [].
Proof.
  intros Hmerge Hid Hurn Hprops Hf Hbefore.
  pose proof (construct_missing_field k o i f w Hmerge Hid Hurn Hprops Hf Hbefore)
    as Hrun.
  split; [exact Hrun |].
  apply issued_nothing. rewrite Hrun. reflexivity.
Qed.

Lemma create_requires_every_field_witness :
  let k := FileInit "f" VNone (VStr "snippets") VNone
             (VDict [("filename", VStr "a.yaml"); ("data", VStr "x")]) VNone in
  @construct pulumi_sdk k w_demo =
    (inl (TypeError "Missing required property 'datastore_id'"), w_demo) /\
  issued (@construct pulumi_sdk k) w_demo = [].
Proof.
  intros k.
  apply (@create_requires_every_field pulumi_sdk k
           (ResourceOptions VNone None None) 1 "datastore_id" w_demo).
  - reflexivity.
  - reflexivity.
  - reflexivity.
  - reflexivity.
  - reflexivity.
  - intros j g v Hj Hlookup. destruct j as [| j]; [| lia].
    simpl in Hlookup. injection Hlookup as _ <-. discriminate.
Defined.

(** C3.  For the File resource [source_raw] is immutable after creation:
    the resource class [File] exposes a getter for it and no setter (the
    setter of [FileArgs] changes the argument object, the desired state,
    not a created resource), and for every existing resource whose
    desired [source_raw] differs from the observed one the reconciliation
    decision is Replace, never Update. *)
Theorem source_raw_change_is_replace (desired : FileModel) (existing : OutputModel) :
  source_raw desired <> source_raw (observed existing) ->
  exposes File_accessors "source_raw" Getter = true /\
  exposes File_accessors "source_raw" Setter = false /\
  exposes FileArgs_accessors "source_raw" Setter = true /\
  reconcile desired (Some existing) = Replace /\
  reconcile desired (Some existing) <> Update.
Proof.
  intros Hdiff.
  assert (reconcile desired (Some existing) = Replace) as Hreplace.
  { unfold reconcile. rewrite bool_decide_eq_false_2 by exact Hdiff. reflexivity. }
  split; [reflexivity |]. split; [reflexivity |]. split; [reflexivity |].
  split; [exact Hreplace |]. rewrite Hreplace. discriminate.
Qed.

Lemma source_raw_change_is_replace_witness :
  let before := mkFileModel "snippets" "ceph-ha" (mkFileSourceRaw "a.yaml" "x") in
  let after := mkFileModel "snippets" "ceph-ha" (mkFileSourceRaw "a.yaml" "y") in
  let existing := mkOutputModel "ceph-ha:snippets/a.yaml" before in
  exposes File_accessors "source_raw" Getter = true /\
  exposes File_accessors "source_raw" Setter = false /\
  exposes FileArgs_accessors "source_raw" Setter = true /\
  reconcile after (Some existing) = Replace /\
  reconcile after (Some existing) <> Update.
Proof.
  intros before after existing.
  apply (source_raw_change_is_replace after existing).
  simpl. discriminate.
Defined.

(** C4.  With no existing identity (the merged options have no id and no
    urn, no [__props__] bag is passed) and every required field present,
    a construction of either resource is the create path whatever the
    field values are: it equals the registration of a fresh bag with the
    host, the bag holds every input under its field name (wrapped as a
    secret for the secret-marked fields), it is the bag of every call the
    construction issues, and, the merge of the secret markers not
    raising, exactly one call is issued. *)
Theorem create_path_is_taken `{sdk : HostSDK}
    (k : Construction) (o : ResourceOptionsT) (w : World) :
  merge get_resource_opts_defaults (opts_of k) = inr (VOpts o) ->
  is_None (ro_id o) = true ->
  urn_truthy o = false ->
  props_of k = VNone ->
  all_present k ->
  construct k w = registration k o (create_bag k) w /\
  (forall i f v, fields_of k !! i = Some (f, v) ->
     getattr (create_bag k) f = Some v \/
     getattr (create_bag k) f = Some (Output_secret v)) /\
  (forall c, c ∈ issued (construct k) w -> call_props c = create_bag k) /\
  ((exists final, merge (VOpts o) secret_opts = inr final) ->
   exists c, issued (construct k) w = [c] /\ call_props c = create_bag k).
Proof.
  intros Hmerge Hid Hurn Hprops Hall.
  assert (construct k w = registration k o (create_bag k) w) as Hrun
    by (apply construct_create; auto).
  split; [exact Hrun |]. split; [| split].
  - intros i f v Hf. destruct k; simpl in Hf.
    + fields_present Hall.
      destruct i as [| [| [| [| [| i]]]]]; simpl in Hf; try discriminate;
        injection Hf as <- <-; unfold create_bag, getattr;
        repeat match goal with Hv : is_None _ = false |- _ => rewrite Hv; clear Hv end;
        first [left; reflexivity | right; reflexivity].
    + destruct i as [| [| [| i]]]; simpl in Hf; try discriminate;
        injection Hf as <- <-; left; reflexivity.
  - intros c Hc. unfold issued in Hc. rewrite Hrun in Hc.
    exact (proj1 (issued_registration k o (create_bag k) w c Hc)).
  - intros Hfinal. unfold issued. rewrite Hrun.
    exact (proj1 (registration_reaches_host k o (create_bag k) w Hfinal)).
Qed.

Lemma create_path_is_taken_witness :
  let k := FileInit "f" VNone (VStr "snippets") (VStr "ceph-ha")
             (VDict [("filename", VStr "a.yaml"); ("data", VStr "x")]) VNone in
  let o := ResourceOptions VNone None None in
  @construct pulumi_sdk k w_demo = @registration pulumi_sdk k o (create_bag k) w_demo /\
  (forall i f v, fields_of k !! i = Some (f, v) ->
     getattr (create_bag k) f = Some v \/
     getattr (create_bag k) f = Some (Output_secret v)) /\
  (forall c, c ∈ issued (@construct pulumi_sdk k) w_demo -> call_props c = create_bag k) /\
  ((exists final, @merge pulumi_sdk (VOpts o) secret_opts = inr final) ->
   exists c, issued (@construct pulumi_sdk k) w_demo = [c] /\ call_props c = create_bag k).
Proof.
  intros k o.
  apply (@create_path_is_taken pulumi_sdk k o w_demo).
  - reflexivity.
  - reflexivity.
  - reflexivity.
  - reflexivity.
  - unfold all_present. simpl. repeat constructor; discriminate.
Defined.

(** C5.  When a construction of either resource fails with a [TypeError]
    (a missing required property, options of the wrong type, or a
    [__props__] bag without an id), the error was raised before the host's
    constructor was reached: the world is the one the construction started
    in, so the host's store of persisted output models is untouched, for
    this resource and for every other, and no host call was issued. *)
Theorem failed_construction_is_atomic `{sdk : HostSDK}
    (k : Construction) (w w' : World) (msg : string) :
  construct k w = (inl (TypeError msg), w') ->
  w' = w /\ store w' = store w /\ issued (construct k) w = [].
Proof.
  intros Hrun.
  assert (w' = w) as -> by exact (construct_fails_early k w msg w' Hrun).
  split; [reflexivity | split; [reflexivity |]].
  apply issued_nothing. rewrite Hrun. reflexivity.
Qed.

Lemma failed_construction_is_atomic_witness :
  let k := ProviderInit "p" VNone (VStr "tok") VNone (VStr "root@pam")
             (VStr "pw") (VStr "root") VNone in
  @construct pulumi_sdk k w_demo =
    (inl (TypeError "Missing required property 'pve_url'"), w_demo) /\
  (w_demo = w_demo /\ store w_demo = store w_demo /\
   issued (@construct pulumi_sdk k) w_demo = []).
Proof.
  intros k. split; [vm_compute; reflexivity |].
  apply (@failed_construction_is_atomic pulumi_sdk k w_demo w_demo
           "Missing required property 'pve_url'").
  vm_compute. reflexivity.
Defined.

(** C6, as the claim states it, fails: a field value whose shape is not
    the declared one is no type error.  [pve_url] is declared
    [pulumi.Input[str]]; with the integer 42 passed for it the
    construction reaches the host, which receives the integer in the
    bag. *)
Lemma shape_mismatch_is_forwarded :
  let k := ProviderInit "p" VNone (VStr "tok") (VInt 42) (VStr "root@pam")
             (VStr "pw") (VStr "root") VNone in
  ill_shaped k /\
  fst (@construct pulumi_sdk k w_demo) = inr "p" /\
  issued (@construct pulumi_sdk k) w_demo =
    [mkHostCall ProviderResource "pve" "p"
       (VObject "ProviderArgs"
          (<["ssh_user" := VStr "root"]>
             (<["ssh_pass" := VSecret (VStr "pw")]>
                (<["pve_user" := VStr "root@pam"]>
                   (<["pve_url" := VInt 42]>
                      (<["pve_token" := VSecret (VStr "tok")]> ∅))))))
       (VOpts (ResourceOptions VNone None (Some ["pveToken"; "sshPass"])))].
Proof.
  intros k. split; [| split].
  - exists 1, "pve_url", (VInt 42), SStr. repeat split; reflexivity.
  - vm_compute. reflexivity.
  - vm_compute. reflexivity.
Qed.

(** C6, amended.  The one shape the bindings check is that of the resource
    options.  If the options of a construction of either resource do not
    merge to a [ResourceOptions] instance (the merge raises its
    [TypeError] on an argument that is no options object; the [isinstance]
    guard of the binding catches any other result), the construction
    fails with a [TypeError], whatever the fields and the [__props__] bag
    are, in the world it started in: no property is marshaled and no host
    call is made.  Field values are not checked for their shape: on the
    create path with every field present, values of any shape whatever
    are put in the bag and the bag is registered. *)
Theorem options_must_be_ResourceOptions `{sdk : HostSDK}
    (k : Construction) (w : World) :
  (merge_raises_TypeError sdk ->
   (forall o, merge get_resource_opts_defaults (opts_of k) <> inr (VOpts o)) ->
   exists msg,
     construct k w = (inl (TypeError msg), w) /\
     issued (construct k) w = [] /\
     (forall merged,
        merge get_resource_opts_defaults (opts_of k) = inr merged ->
        msg = "Expected resource options to be a ResourceOptions instance")) /\
  (forall o,
     merge get_resource_opts_defaults (opts_of k) = inr (VOpts o) ->
     is_None (ro_id o) = true ->
     props_of k = VNone ->
     all_present k ->
     construct k w = registration k o (create_bag k) w /\
     (forall i f v, fields_of k !! i = Some (f, v) ->
        getattr (create_bag k) f = Some v \/
        getattr (create_bag k) f = Some (Output_secret v)) /\
     (forall c, c ∈ issued (construct k) w -> call_props c = create_bag k)).
Proof.
  split.
  - intros Hraises Hnot.
    destruct (merge get_resource_opts_defaults (opts_of k)) as [e | merged] eqn:Hmerge.
    + destruct (Hraises _ _ _ Hmerge) as [msg ->].
      assert (construct k w = (inl (TypeError msg), w)) as Hrun.
      { destruct k; simpl in Hmerge;
          unfold construct, Provider._internal_init, File._internal_init;
          rewrite Hmerge; reflexivity. }
      exists msg. split; [exact Hrun |]. split.
      * apply issued_nothing. rewrite Hrun. reflexivity.
      * intros merged Hmerged. discriminate.
    + assert (isinstance_ResourceOptions merged = false) as Hinst.
      { destruct merged as [| | | | | | | o]; try reflexivity.
        destruct (Hnot o eq_refl). }
      pose proof (construct_bad_options k merged w Hmerge Hinst) as Hrun.
      eexists. split; [exact Hrun |]. split.
      * apply issued_nothing. rewrite Hrun. reflexivity.
      * intros merged' Hmerged. reflexivity.
  - intros o Hmerge Hid Hprops Hall.
    assert (construct k w = registration k o (create_bag k) w) as Hrun
      by (apply construct_create; auto).
    split; [exact Hrun |]. split.
    + intros i f v Hf. exact (create_bag_holds_inputs k i f v Hall Hf).
    + intros c Hc. unfold issued in Hc. rewrite Hrun in Hc.
      exact (proj1 (issued_registration k o (create_bag k) w c Hc)).
Qed.

Lemma options_must_be_ResourceOptions_witness :
  let raw := VDict [("filename", VStr "a.yaml"); ("data", VStr "x")] in
  let k := FileInit "f" (VStr "protect") (VStr "snippets") (VStr "ceph-ha") raw VNone in
  let k' := ProviderInit "p" VNone (VStr "tok") (VInt 42) (VStr "root@pam")
              (VStr "pw") (VStr "root") VNone in
  let o := ResourceOptions VNone None None in
  (exists msg,
     @construct pulumi_sdk k w_demo = (inl (TypeError msg), w_demo) /\
     issued (@construct pulumi_sdk k) w_demo = [] /\
     (forall merged,
        @merge pulumi_sdk (@get_resource_opts_defaults pulumi_sdk) (opts_of k)
        = inr merged ->
        msg = "Expected resource options to be a ResourceOptions instance")) /\
  (@construct pulumi_sdk k' w_demo = @registration pulumi_sdk k' o (create_bag k') w_demo /\
   (forall i f v, fields_of k' !! i = Some (f, v) ->
      getattr (create_bag k') f = Some v \/
      getattr (create_bag k') f = Some (Output_secret v)) /\
   (forall c, c ∈ issued (@construct pulumi_sdk k') w_demo ->
      call_props c = create_bag k')).
Proof.
  intros raw k k' o. split.
  - apply (proj1 (@options_must_be_ResourceOptions pulumi_sdk k w_demo)).
    + exact pulumi_sdk_merge_raises_TypeError.
    + intros o' Hmerge. discriminate Hmerge.
  - apply (proj2 (@options_must_be_ResourceOptions pulumi_sdk k' w_demo) o).
    + reflexivity.
    + reflexivity.
    + reflexivity.
    + unfold all_present. simpl. repeat constructor; discriminate.
Defined.




(** C8.  With a urn in the merged options (and no id, no [__props__] bag)
    a construction of either resource in which every declared field is
    absent raises none of the missing-required-property errors: it is the
    registration of a bag that holds [None] under every field name, so,
    the merge of the secret markers not raising, the host is called with
    that bag and the construction ends without a [TypeError]. *)
Theorem urn_waives_required_fields `{sdk : HostSDK}
    (k : Construction) (o : ResourceOptionsT) (w : World) :
  merge get_resource_opts_defaults (opts_of k) = inr (VOpts o) ->
  is_None (ro_id o) = true ->
  urn_truthy o = true ->
  props_of k = VNone ->
  all_absent k ->
  (exists final, merge (VOpts o) secret_opts = inr final) ->
  construct k w = registration k o (create_bag k) w /\
  (forall f, f ∈ (fields_of k).*1 -> getattr (create_bag k) f = Some VNone) /\
  (exists c, issued (construct k) w = [c] /\ call_props c = create_bag k) /\
  (forall msg w', construct k w <> (inl (TypeError msg), w')).
Proof.
  intros Hmerge Hid Hurn Hprops Habsent Hfinal.
  assert (construct k w = registration k o (create_bag k) w) as Hrun
    by (apply construct_create; auto).
  destruct (registration_reaches_host k o (create_bag k) w Hfinal) as [Hcall Hok].
  split; [exact Hrun |]. split; [| split].
  - intros f Hf.
    destruct k; simpl in Hf; fields_absent Habsent;
      repeat (apply elem_of_cons in Hf as [-> | Hf]; [reflexivity |]);
      apply elem_of_nil in Hf; destruct Hf.
  - unfold issued in *. rewrite Hrun. exact Hcall.
  - intros msg w'. rewrite Hrun. apply Hok.
Qed.

Lemma urn_waives_required_fields_witness :
  let k := ProviderInit "p"
             (VOpts (ResourceOptions VNone (Some "urn:pulumi:dev::proj::pulumi:providers:pve::p") None))
             VNone VNone VNone VNone VNone VNone in
  let o := ResourceOptions VNone (Some "urn:pulumi:dev::proj::pulumi:providers:pve::p") None in
  @construct pulumi_sdk k w_demo = @registration pulumi_sdk k o (create_bag k) w_demo /\
  (forall f, f ∈ (fields_of k).*1 -> getattr (create_bag k) f = Some VNone) /\
  (exists c, issued (@construct pulumi_sdk k) w_demo = [c] /\ call_props c = create_bag k) /\
  (forall msg w', @construct pulumi_sdk k w_demo <> (inl (TypeError msg), w')).
Proof.
  intros k o.
  apply (@urn_waives_required_fields pulumi_sdk k o w_demo).
  - reflexivity.
  - reflexivity.
  - reflexivity.
  - reflexivity.
  - unfold all_absent. simpl. repeat constructor.
  - eexists. reflexivity.
Defined.

(** C9.  For either resource, with merged options that are a
    [ResourceOptions] instance: a [__props__] bag that is not [None]
    without an id is the [TypeError] that says so, raised before any host
    call; with an id, the construction is the registration of the
    [__props__] argument exactly as it was passed, whatever it is. *)
Theorem props_bag_needs_id `{sdk : HostSDK}
    (k : Construction) (o : ResourceOptionsT) (w : World) :
  merge get_resource_opts_defaults (opts_of k) = inr (VOpts o) ->
  (is_None (ro_id o) = true -> props_of k <> VNone ->
     construct k w =
       (inl (TypeError "__props__ is only valid when passed in combination with a valid opts.id to get an existing resource"), w) /\
     issued (construct k) w = []) /\
  (is_None (ro_id o) = false ->
     construct k w = registration k o (props_of k) w /\
     forall c, c ∈ issued (construct k) w -> call_props c = props_of k).
Proof.
  intros Hmerge. split.
  - intros Hid Hprops.
    pose proof (construct_props_without_id k o w Hmerge Hid Hprops) as Hrun.
    split; [exact Hrun |].
    apply issued_nothing. rewrite Hrun. reflexivity.
  - intros Hid.
    pose proof (construct_lookup k o w Hmerge Hid) as Hrun.
    split; [exact Hrun |].
    intros c Hc. unfold issued in Hc. rewrite Hrun in Hc.
    exact (proj1 (issued_registration k o (props_of k) w c Hc)).
Qed.

Lemma props_bag_needs_id_witness :
  let bag := VInt 7 in
  let k0 := FileInit "f" VNone VNone VNone VNone bag in
  let k1 := FileInit "f" (VOpts (ResourceOptions (VStr "id-1") None None))
              VNone VNone VNone bag in
  (@construct pulumi_sdk k0 w_demo =
     (inl (TypeError "__props__ is only valid when passed in combination with a valid opts.id to get an existing resource"), w_demo) /\
   issued (@construct pulumi_sdk k0) w_demo = []) /\
  (@construct pulumi_sdk k1 w_demo =
     @registration pulumi_sdk k1 (ResourceOptions (VStr "id-1") None None) bag w_demo /\
   forall c, c ∈ issued (@construct pulumi_sdk k1) w_demo -> call_props c = bag).
Proof.
  intros bag k0 k1. split.
  - apply (proj1 (@props_bag_needs_id pulumi_sdk k0
                    (ResourceOptions VNone None None) w_demo eq_refl)).
    + reflexivity.
    + discriminate.
  - apply (proj2 (@props_bag_needs_id pulumi_sdk k1
                    (ResourceOptions (VStr "id-1") None None) w_demo eq_refl)).
    reflexivity.
Defined.

(** C10, as the claim states it, fails: the forwarded list is not always
    exactly the two markers.  A caller who passes options that already
    list [pveUrl] as a secret output gets the three names forwarded. *)
Lemma caller_secret_outputs_are_kept :
  let opts := VOpts (ResourceOptions VNone None (Some ["pveUrl"])) in
  exists c final,
    issued (@Provider._internal_init pulumi_sdk "p" opts (VStr "tok")
              (VStr "https://pve:8006") (VStr "root@pam") (VStr "pw")
              (VStr "root") VNone) w_demo = [c] /\
    call_opts c = VOpts final /\
    ro_additional_secret_outputs final = Some ["pveUrl"; "pveToken"; "sshPass"] /\
    ro_additional_secret_outputs final <> Some ["pveToken"; "sshPass"].
Proof.
  intros opts. eexists. eexists. split; [vm_compute; reflexivity |].
  split; [reflexivity |]. split; [reflexivity | discriminate].
Qed.

(** C10, amended.  With the Pulumi SDK's merge, on every construction
    path of [Provider] (create, lookup by id, urn) each call that reaches
    the host carries options whose [additional_secret_outputs] ends with
    [pveToken] and [sshPass]: the two markers are appended to the names
    the merged caller options already list, so the list is exactly the
    two markers when those list none. *)
Theorem provider_secret_markers_always_attached `{sdk : HostSDK}
    (resource_name : string)
    (opts pve_token pve_url pve_user ssh_pass ssh_user __props__ : PyVal)
    (w : World) (c : HostCall) :
  merges_like_pulumi sdk ->
  c ∈ issued (Provider._internal_init resource_name opts pve_token pve_url
                pve_user ssh_pass ssh_user __props__) w ->
  exists o final,
    merge get_resource_opts_defaults opts = inr (VOpts o) /\
    call_opts c = VOpts final /\
    ro_additional_secret_outputs final =
      Some (default [] (ro_additional_secret_outputs o) ++ ["pveToken"; "sshPass"]) /\
    (ro_additional_secret_outputs o = None ->
       ro_additional_secret_outputs final = Some ["pveToken"; "sshPass"]).
Proof.
  intros Hsdk Hc. unfold Provider._internal_init in Hc.
  destruct (merge get_resource_opts_defaults opts) as [e | merged] eqn:Hmerge.
  { rewrite issued_bind_lift_inl in Hc. apply elem_of_nil in Hc. destruct Hc. }
  rewrite issued_bind_lift_inr in Hc.
  destruct merged as [| | | | | | | o]; try nothing_issued Hc.
  apply issued_bind_silent in Hc;
    [| exact (Provider_bag_silent resource_name o opts pve_token pve_url
                pve_user ssh_pass ssh_user __props__)].
  destruct Hc as [bag Hc].
  fold secret_opts in Hc. rewrite (merge_secret_opts o Hsdk) in Hc.
  rewrite issued_bind_lift_inr, issued_super_init in Hc.
  apply list_elem_of_singleton in Hc. subst c.
  eexists. eexists. split; [reflexivity |]. split; [reflexivity |].
  split; [reflexivity |]. simpl. intros ->. reflexivity.
Qed.

Lemma provider_secret_markers_always_attached_witness :
  let bag := VObject "ProviderArgs" (<["pve_url" := VNone]> ∅) in
  let opts := VOpts (ResourceOptions (VStr "id-7") None None) in
  let c := mkHostCall ProviderResource "pve" "p" bag
             (VOpts (ResourceOptions (VStr "id-7") None
                       (Some ["pveToken"; "sshPass"]))) in
  exists o final,
    @merge pulumi_sdk (@get_resource_opts_defaults pulumi_sdk) opts = inr (VOpts o) /\
    call_opts c = VOpts final /\
    ro_additional_secret_outputs final =
      Some (default [] (ro_additional_secret_outputs o) ++ ["pveToken"; "sshPass"]) /\
    (ro_additional_secret_outputs o = None ->
       ro_additional_secret_outputs final = Some ["pveToken"; "sshPass"]).
Proof.
  intros bag opts c.
  apply (@provider_secret_markers_always_attached pulumi_sdk "p" opts
           VNone VNone VNone VNone VNone bag w_demo c).
  - exact pulumi_sdk_merges_like_pulumi.
  - vm_compute. apply list_elem_of_here.
Defined.

(** ** Beyond the claims: the entry points and the argument classes *)

Section EntryPoints.
Context `{sdk : HostSDK}.

Lemma one_shot_raise b t n (e : exn) : one_shot b t n (raise e).
Proof. intros w. left. exists e. reflexivity. Qed.

Lemma one_shot_super_init b t n props opts :
  one_shot b t n (super_init b t n props opts).
Proof. intros w. right. exists props, opts. reflexivity. Qed.

Lemma one_shot_bind {A} b t n (m : M A) (k : A -> M Handle) :
  silent m -> (forall a, one_shot b t n (k a)) -> one_shot b t n (bind m k).
Proof.
  intros Hm Hk w. unfold bind. specialize (Hm w).
  destruct (m w) as [[e | a] w1]; simpl in Hm; subst w1.
  - left. exists e. reflexivity.
  - apply Hk.
Qed.

Lemma Provider_internal_init_one_shot n opts tok url user pass suser props :
  one_shot ProviderResource "pve" n
    (Provider._internal_init n opts tok url user pass suser props).
Proof.
  unfold Provider._internal_init.
  apply one_shot_bind; [apply silent_lift | intros merged].
  destruct merged as [| | | | | | | o]; try apply one_shot_raise.
  apply one_shot_bind.
  - exact (Provider_bag_silent n o opts tok url user pass suser props).
  - intros bag. apply one_shot_bind; [apply silent_lift | intros final].
    apply one_shot_super_init.
Qed.

Lemma File_internal_init_one_shot n opts ct ds raw props :
  one_shot CustomResource "pve:storage:File" n
    (File._internal_init n opts ct ds raw props).
Proof.
  unfold File._internal_init.
  apply one_shot_bind; [apply silent_lift | intros merged].
  destruct merged as [| | | | | | | o]; try apply one_shot_raise.
  apply one_shot_bind.
  - exact (File_bag_silent n o opts ct ds raw props).
  - intros bag. apply one_shot_super_init.
Qed.

Lemma File_init_one_shot n args kwargs :
  one_shot CustomResource "pve:storage:File" n (File.__init__ n args kwargs).
Proof.
  unfold File.__init__, File.call_internal_init.
  destruct (get_resource_args_opts _ _ _) as [resource_args opts].
  destruct (negb (is_None resource_args));
    (apply one_shot_bind;
     [apply silent_lift | intros b; apply File_internal_init_one_shot]).
Qed.

Lemma enter_one_shot (p : PublicCall) :
  one_shot (base_of p) (token_of p) (name_of p) (enter p).
Proof.
  destruct p as [n args kwargs | n args kwargs | n id opts]; simpl.
  - unfold Provider.__init__, Provider.call_internal_init.
    destruct (get_resource_args_opts _ _ _) as [resource_args opts].
    destruct (negb (is_None resource_args));
      (apply one_shot_bind;
       [apply silent_lift | intros b; apply Provider_internal_init_one_shot]).
  - apply File_init_one_shot.
  - unfold File.get.
    apply one_shot_bind; [apply silent_lift | intros merged].
    apply File_init_one_shot.
Qed.
End EntryPoints.

(** X1.  Whatever the arguments and whatever the host SDK, a call of
    [Provider.__init__], [File.__init__] or [File.get] either raises in
    the world it started in (store and trace untouched) or is exactly one
    call of the base class constructor, with the class's own type token
    and the resource name as given. *)
Theorem entry_point_is_one_host_call `{sdk : HostSDK} (p : PublicCall) (w : World) :
  (exists e, enter p w = (inl e, w)) \/
  (exists props opts,
     enter p w = super_init (base_of p) (token_of p) (name_of p) props opts w).
Proof.
  revert w. change (one_shot (base_of p) (token_of p) (name_of p) (enter p)).
  destruct p as [n args kwargs | n args kwargs | n id opts]; simpl.
  - unfold Provider.__init__, Provider.call_internal_init.
    destruct (get_resource_args_opts _ _ _) as [resource_args opts].
    destruct (negb (is_None resource_args));
      (apply one_shot_bind;
       [apply silent_lift | intros b; apply Provider_internal_init_one_shot]).
  - apply File_init_one_shot.
  - unfold File.get.
    apply one_shot_bind; [apply silent_lift | intros merged].
    apply File_init_one_shot.
Qed.

(** X2.  A public entry point that returns a handle has issued exactly one
    host call, under the class's type token and the given name; the
    handle and the new store are the ones the host's constructor
    returned for that call, and the earlier trace is kept. *)
Theorem returned_handle_is_the_hosts `{sdk : HostSDK}
    (p : PublicCall) (w w' : World) (h : Handle) :
  enter p w = (inr h, w') ->
  exists c,
    issued (enter p) w = [c] /\
    trace w' = trace w ++ [c] /\
    call_base c = base_of p /\ call_type c = token_of p /\
    call_name c = name_of p /\
    host_init c (store w) = (inr h, store w').
Proof.
  intros Hrun.
  destruct (enter_one_shot p w) as [[e He] | [props [opts Hcall]]].
  - rewrite He in Hrun. discriminate.
  - exists (mkHostCall (base_of p) (token_of p) (name_of p) props opts).
    split.
    { unfold issued. rewrite Hcall. apply issued_super_init. }
    rewrite Hcall in Hrun. unfold super_init in Hrun.
    destruct (host_init _ (store w)) as [[detail | h0] s'] eqn:Hhost;
      [discriminate |].
    injection Hrun as <- <-. simpl. repeat split; reflexivity.
Qed.

Lemma returned_handle_is_the_hosts_witness :
  let p := GetFile "f" (VStr "ceph-ha:snippets/a.yaml") VNone in
  exists w', @enter pulumi_sdk p w_demo = (inr "f", w') /\
  exists c,
    issued (@enter pulumi_sdk p) w_demo = [c] /\
    trace w' = trace w_demo ++ [c] /\
    call_base c = base_of p /\ call_type c = token_of p /\
    call_name c = name_of p /\
    @host_init pulumi_sdk c (store w_demo) = (inr "f", store w').
Proof.
  intros p. eexists. split; [vm_compute; reflexivity |].
  apply (@returned_handle_is_the_hosts pulumi_sdk p w_demo _ "f").
  vm_compute. reflexivity.
Defined.

(** X3.  Everything an entry point raises before it calls the base class
    constructor leaves the world as it was.  A [TypeError] (in this
    development: an error of Python's argument binding, of the option
    merge or of the checks of [_internal_init]; what the base class
    constructor raises is a [HostError], whatever its Python class, and
    is not meant here) comes with the world the call started in and no
    host call; and, whatever the error classes, a run that issues no host
    call is a failure in the unchanged world. *)
Theorem entry_point_TypeError_is_atomic `{sdk : HostSDK}
    (p : PublicCall) (w : World) :
  (forall msg w',
     enter p w = (inl (TypeError msg), w') ->
     w' = w /\ issued (enter p) w = []) /\
  (issued (enter p) w = [] -> exists e, enter p w = (inl e, w)).
Proof.
  split.
  - intros msg w' Hrun.
    assert (w' = w) as ->.
    { destruct p; simpl in Hrun.
      - exact (Provider_init_fails_early _ _ _ w msg w' Hrun).
      - exact (File_init_fails_early _ _ _ w msg w' Hrun).
      - exact (File_get_fails_early _ _ _ w msg w' Hrun). }
    split; [reflexivity |].
    apply issued_nothing. rewrite Hrun. reflexivity.
  - intros Hnone.
    destruct (enter_one_shot p w) as [He | [props [opts Hcall]]]; [exact He |].
    unfold issued in Hnone. rewrite Hcall in Hnone.
    fold (issued (super_init (base_of p) (token_of p) (name_of p) props opts) w) in Hnone.
    rewrite issued_super_init in Hnone. discriminate.
Qed.

Lemma entry_point_TypeError_is_atomic_witness :
  let p := NewFile "f" []
             [("content_type", VStr "snippets"); ("source_raw", VInt 1)] in
  (forall msg w',
     @enter pulumi_sdk p w_demo = (inl (TypeError msg), w') ->
     w' = w_demo /\ issued (@enter pulumi_sdk p) w_demo = []) /\
  @enter pulumi_sdk p w_demo =
    (inl (TypeError "Missing required property 'datastore_id'"), w_demo) /\
  (exists e, @enter pulumi_sdk p w_demo = (inl e, w_demo)).
Proof.
  intros p.
  pose proof (@entry_point_TypeError_is_atomic pulumi_sdk p w_demo) as [Hraise Hnone].
  split; [exact Hraise |]. split; [vm_compute; reflexivity |].
  apply Hnone. vm_compute. reflexivity.
Defined.

Lemma pulumi_sdk_args_object : args_object_is_recognised pulumi_sdk.
Proof.
  intros cls d opts Hopts. simpl. unfold generated_get_resource_args_opts.
  unfold isinstance. rewrite String.eqb_refl. cbn [is_None].
  destruct Hopts as [-> | Hinst]; [reflexivity |].
  destruct opts; try discriminate. reflexivity.
Qed.

Lemma pulumi_sdk_keyword_passed_on : keyword_call_is_passed_on pulumi_sdk.
Proof.
  intros cls kwargs Hargs. simpl. unfold generated_get_resource_args_opts.
  cbn [is_None]. rewrite Hargs. reflexivity.
Qed.

(** X4.  The two overloads of [Provider.__init__] agree: constructing
    from a [ProviderArgs] object and options, or from the same values as
    keyword arguments, is the same call of [_internal_init] with those
    values and no [__props__]. *)
Theorem provider_overloads_agree `{sdk : HostSDK}
    (resource_name : string)
    (opts pve_token pve_url pve_user ssh_pass ssh_user : PyVal) :
  args_object_is_recognised sdk ->
  keyword_call_is_passed_on sdk ->
  opts = VNone \/ isinstance_ResourceOptions opts = true ->
  Provider.__init__ resource_name
    [ProviderArgs.__init__ pve_token pve_url pve_user ssh_pass ssh_user; opts] []
  = Provider._internal_init resource_name opts pve_token pve_url pve_user
      ssh_pass ssh_user VNone /\
  Provider.__init__ resource_name []
    [("opts", opts); ("pve_token", pve_token); ("pve_url", pve_url);
     ("pve_user", pve_user); ("ssh_pass", ssh_pass); ("ssh_user", ssh_user)]
  = Provider._internal_init resource_name opts pve_token pve_url pve_user
      ssh_pass ssh_user VNone.
Proof.
  intros Hargs Hkw Hopts. split.
  - unfold Provider.__init__, ProviderArgs.__init__, pulumi_set.
    rewrite (Hargs _ _ _ Hopts). reflexivity.
  - unfold Provider.__init__. rewrite Hkw by reflexivity. reflexivity.
Qed.

Lemma provider_overloads_agree_witness :
  let opts := VOpts (ResourceOptions VNone None (Some ["pveUrl"])) in
  @Provider.__init__ pulumi_sdk "p"
    [ProviderArgs.__init__ (VStr "tok") (VStr "https://pve:8006")
       (VStr "root@pam") (VStr "pw") (VStr "root"); opts] []
  = @Provider._internal_init pulumi_sdk "p" opts (VStr "tok")
      (VStr "https://pve:8006") (VStr "root@pam") (VStr "pw") (VStr "root") VNone /\
  @Provider.__init__ pulumi_sdk "p" []
    [("opts", opts); ("pve_token", VStr "tok"); ("pve_url", VStr "https://pve:8006");
     ("pve_user", VStr "root@pam"); ("ssh_pass", VStr "pw"); ("ssh_user", VStr "root")]
  = @Provider._internal_init pulumi_sdk "p" opts (VStr "tok")
      (VStr "https://pve:8006") (VStr "root@pam") (VStr "pw") (VStr "root") VNone.
Proof.
  intros opts.
  apply (@provider_overloads_agree pulumi_sdk "p" opts (VStr "tok")
           (VStr "https://pve:8006") (VStr "root@pam") (VStr "pw") (VStr "root")).
  - exact pulumi_sdk_args_object.
  - exact pulumi_sdk_keyword_passed_on.
  - right. reflexivity.
Defined.

(** X5.  The two overloads of [File.__init__] agree in the same way. *)
Theorem file_overloads_agree `{sdk : HostSDK}
    (resource_name : string) (opts content_type datastore_id source_raw : PyVal) :
  args_object_is_recognised sdk ->
  keyword_call_is_passed_on sdk ->
  opts = VNone \/ isinstance_ResourceOptions opts = true ->
  File.__init__ resource_name
    [FileArgs.__init__ content_type datastore_id source_raw; opts] []
  = File._internal_init resource_name opts content_type datastore_id
      source_raw VNone /\
  File.__init__ resource_name []
    [("opts", opts); ("content_type", content_type);
     ("datastore_id", datastore_id); ("source_raw", source_raw)]
  = File._internal_init resource_name opts content_type datastore_id
      source_raw VNone.
Proof.
  intros Hargs Hkw Hopts. split.
  - unfold File.__init__, FileArgs.__init__, pulumi_set.
    rewrite (Hargs _ _ _ Hopts). reflexivity.
  - unfold File.__init__. rewrite Hkw by reflexivity. reflexivity.
Qed.

Lemma file_overloads_agree_witness :
  let raw := VDict [("filename", VStr "a.yaml"); ("data", VStr "x")] in
  @File.__init__ pulumi_sdk "f"
    [FileArgs.__init__ (VStr "snippets") (VStr "ceph-ha") raw; VNone] []
  = @File._internal_init pulumi_sdk "f" VNone (VStr "snippets") (VStr "ceph-ha")
      raw VNone /\
  @File.__init__ pulumi_sdk "f" []
    [("opts", VNone); ("content_type", VStr "snippets");
     ("datastore_id", VStr "ceph-ha"); ("source_raw", raw)]
  = @File._internal_init pulumi_sdk "f" VNone (VStr "snippets") (VStr "ceph-ha")
      raw VNone.
Proof.
  intros raw.
  apply (@file_overloads_agree pulumi_sdk "f" VNone (VStr "snippets")
           (VStr "ceph-ha") raw).
  - exact pulumi_sdk_args_object.
  - exact pulumi_sdk_keyword_passed_on.
  - left. reflexivity.
Defined.

Section StrayAttribute.
Context `{sdk : HostSDK}.

(** A keyword that names no parameter stops the binding. *)
Lemma bind_keywords_unexpected (params : list string)
    (kwargs : list (string * PyVal)) (b : gmap string PyVal) (k : string) (v : PyVal) :
  (k, v) ∈ kwargs -> k ∉ params ->
  exists msg, bind_keywords params kwargs b = inl (TypeError msg).
Proof.
  intros Hin Hk. revert b.
  induction kwargs as [| [k0 v0] kwargs IH]; intros b.
  - apply elem_of_nil in Hin. destruct Hin.
  - simpl. destruct (bool_decide (k0 ∈ params)) eqn:Hk0; simpl.
    + destruct (b !! k0); [eexists; reflexivity |].
      apply IH. apply elem_of_cons in Hin as [Heq | Hin]; [| exact Hin].
      injection Heq as -> ->. apply bool_decide_eq_true_1 in Hk0.
      destruct (Hk Hk0).
    + eexists. reflexivity.
Qed.

Lemma bind_arguments_unexpected (params : list string) (opts : PyVal)
    (kwargs : list (string * PyVal)) (k : string) (v : PyVal) :
  (k, v) ∈ kwargs -> k ∉ params ->
  exists msg, bind_arguments params [opts] kwargs = inl (TypeError msg).
Proof.
  intros Hin Hk. unfold bind_arguments.
  destruct (bind_positional params [opts]) as [e | b] eqn:Hpos.
  - destruct params as [| p [| q params]]; simpl in Hpos; try discriminate.
    injection Hpos as <-. eexists. reflexivity.
  - eapply bind_keywords_unexpected; eauto.
Qed.
End StrayAttribute.

(** X6.  An argument object whose [__dict__] holds an attribute that is
    not a parameter of [_internal_init] makes [Provider.__init__] and
    [File.__init__] fail with a [TypeError] in the world they started in:
    the attribute is passed on as a keyword, and no host call is made. *)
Theorem stray_attribute_is_rejected `{sdk : HostSDK}
    (resource_name : string) (d : gmap string PyVal) (opts : PyVal)
    (k : string) (v : PyVal) (w : World) :
  args_object_is_recognised sdk ->
  opts = VNone \/ isinstance_ResourceOptions opts = true ->
  d !! k = Some v ->
  (k ∉ Provider.params ->
   exists msg,
     Provider.__init__ resource_name [VObject "ProviderArgs" d; opts] [] w
     = (inl (TypeError msg), w)) /\
  (k ∉ File.params ->
   exists msg,
     File.__init__ resource_name [VObject "FileArgs" d; opts] [] w
     = (inl (TypeError msg), w)).
Proof.
  intros Hargs Hopts Hd.
  assert ((k, v) ∈ map_to_list d) as Hin by (apply elem_of_map_to_list; exact Hd).
  split; intros Hk.
  - destruct (bind_arguments_unexpected Provider.params opts (map_to_list d) k v Hin Hk)
      as [msg Hmsg].
    exists msg. unfold Provider.__init__. rewrite (Hargs _ _ _ Hopts).
    cbn [is_None negb]. unfold Provider.call_internal_init, dict_kwargs.
    rewrite Hmsg. reflexivity.
  - destruct (bind_arguments_unexpected File.params opts (map_to_list d) k v Hin Hk)
      as [msg Hmsg].
    exists msg. unfold File.__init__. rewrite (Hargs _ _ _ Hopts).
    cbn [is_None negb]. unfold File.call_internal_init, dict_kwargs.
    rewrite Hmsg. reflexivity.
Qed.

Lemma stray_attribute_is_rejected_witness :
  let d : gmap string PyVal :=
    <["pve_tokn" := VStr "tok"]> (<["pve_url" := VStr "https://pve:8006"]> ∅) in
  (exists msg,
     @Provider.__init__ pulumi_sdk "p" [VObject "ProviderArgs" d; VNone] [] w_demo
     = (inl (TypeError msg), w_demo)) /\
  (exists msg,
     @File.__init__ pulumi_sdk "p" [VObject "FileArgs" d; VNone] [] w_demo
     = (inl (TypeError msg), w_demo)).
Proof.
  intros d.
  pose proof (@stray_attribute_is_rejected pulumi_sdk "p" d VNone "pve_tokn"
                (VStr "tok") w_demo pulumi_sdk_args_object
                (or_introl eq_refl) eq_refl) as [Hprovider Hfile].
  split.
  - apply Hprovider. intros Hin.
    repeat (apply elem_of_cons in Hin as [Heq | Hin]; [discriminate |]).
    apply elem_of_nil in Hin. exact Hin.
  - apply Hfile. intros Hin.
    repeat (apply elem_of_cons in Hin as [Heq | Hin]; [discriminate |]).
    apply elem_of_nil in Hin. exact Hin.
Defined.

(** X7.  Whenever [Provider._internal_init] builds the bag itself (the
    merged options have no id; a urn may or may not be set), each call
    that reaches the host carries, under [pve_token] and [ssh_pass],
    either [None] or the input wrapped by [Output.secret]: on the urn path
    too, a secret-marked field is never forwarded in plaintext. *)
Theorem provider_bag_never_holds_plaintext `{sdk : HostSDK}
    (resource_name : string)
    (opts pve_token pve_url pve_user ssh_pass ssh_user __props__ : PyVal)
    (o : ResourceOptionsT) (w : World) (c : HostCall) :
  merge get_resource_opts_defaults opts = inr (VOpts o) ->
  is_None (ro_id o) = true ->
  c ∈ issued (Provider._internal_init resource_name opts pve_token pve_url
                pve_user ssh_pass ssh_user __props__) w ->
  getattr (call_props c) "pve_token" =
    Some (if is_None pve_token then VNone else Output_secret pve_token) /\
  getattr (call_props c) "ssh_pass" =
    Some (if is_None ssh_pass then VNone else Output_secret ssh_pass) /\
  (forall f v, f ∈ ["pve_token"; "ssh_pass"] ->
     getattr (call_props c) f = Some v -> is_None v || is_secret v = true).
Proof.
  intros Hmerge Hid Hc.
  assert (call_props c =
          create_bag (ProviderInit resource_name opts pve_token pve_url
                        pve_user ssh_pass ssh_user __props__)) as Hbag.
  { unfold Provider._internal_init in Hc.
    rewrite Hmerge, issued_bind_lift_inr, Hid in Hc.
    destruct (is_None __props__); [| nothing_issued Hc].
    destruct (urn_truthy o).
    - cbn [negb] in Hc. rewrite !andb_false_r in Hc.
      exact (proj1 (issued_registration
                      (ProviderInit resource_name opts pve_token pve_url
                         pve_user ssh_pass ssh_user __props__) o _ w c Hc)).
    - destruct (is_None pve_token) eqn:Htok; [nothing_issued Hc |].
      destruct (is_None pve_url); [nothing_issued Hc |].
      destruct (is_None pve_user); [nothing_issued Hc |].
      destruct (is_None ssh_pass) eqn:Hpass; [nothing_issued Hc |].
      destruct (is_None ssh_user); [nothing_issued Hc |].
      apply (issued_registration
               (ProviderInit resource_name opts pve_token pve_url pve_user
                  ssh_pass ssh_user __props__) o) in Hc.
      destruct Hc as [Hprops _]. rewrite Hprops.
      unfold create_bag. rewrite Htok, Hpass. reflexivity. }
  rewrite Hbag.
  assert (getattr (create_bag (ProviderInit resource_name opts pve_token pve_url
                                 pve_user ssh_pass ssh_user __props__)) "pve_token"
          = Some (if is_None pve_token then VNone else Output_secret pve_token))
    as Htok by reflexivity.
  assert (getattr (create_bag (ProviderInit resource_name opts pve_token pve_url
                                 pve_user ssh_pass ssh_user __props__)) "ssh_pass"
          = Some (if is_None ssh_pass then VNone else Output_secret ssh_pass))
    as Hpass by reflexivity.
  split; [exact Htok |]. split; [exact Hpass |].
  intros f v Hf Hv.
  apply elem_of_cons in Hf as [-> | Hf];
    [| apply list_elem_of_singleton in Hf as ->].
  - rewrite Htok in Hv. injection Hv as <-.
    destruct (is_None pve_token); reflexivity.
  - rewrite Hpass in Hv. injection Hv as <-.
    destruct (is_None ssh_pass); reflexivity.
Qed.

Lemma provider_bag_never_holds_plaintext_witness :
  let opts := VOpts (ResourceOptions VNone (Some "urn:pulumi:dev::proj::pulumi:providers:pve::p") None) in
  let c := mkHostCall ProviderResource "pve" "p"
             (VObject "ProviderArgs"
                (<["ssh_user" := VNone]>
                   (<["ssh_pass" := VNone]>
                      (<["pve_user" := VNone]>
                         (<["pve_url" := VNone]>
                            (<["pve_token" := VSecret (VStr "tok")]> ∅))))))
             (VOpts (ResourceOptions VNone
                       (Some "urn:pulumi:dev::proj::pulumi:providers:pve::p")
                       (Some ["pveToken"; "sshPass"]))) in
  getattr (call_props c) "pve_token" =
    Some (if is_None (VStr "tok") then VNone else Output_secret (VStr "tok")) /\
  getattr (call_props c) "ssh_pass" =
    Some (if is_None VNone then VNone else Output_secret VNone) /\
  (forall f v, f ∈ ["pve_token"; "ssh_pass"] ->
     getattr (call_props c) f = Some v -> is_None v || is_secret v = true).
Proof.
  intros opts c.
  apply (@provider_bag_never_holds_plaintext pulumi_sdk "p" opts (VStr "tok")
           VNone VNone VNone VNone VNone
           (ResourceOptions VNone (Some "urn:pulumi:dev::proj::pulumi:providers:pve::p") None)
           w_demo c).
  - reflexivity.
  - reflexivity.
  - vm_compute. apply list_elem_of_here.
Defined.

(** X8.  With an id in the merged options the field arguments are not
    looked at: two constructions of the same resource that differ only in
    their field values (absent ones included) run identically, so no
    required-field check applies and none of the values reaches the
    host. *)
Theorem lookup_ignores_field_arguments `{sdk : HostSDK}
    (resource_name : string) (opts __props__ : PyVal) (o : ResourceOptionsT)
    (tok url user pass suser tok' url' user' pass' suser' : PyVal)
    (ct ds raw ct' ds' raw' : PyVal) (w : World) :
  merge get_resource_opts_defaults opts = inr (VOpts o) ->
  is_None (ro_id o) = false ->
  Provider._internal_init resource_name opts tok url user pass suser __props__ w
  = Provider._internal_init resource_name opts tok' url' user' pass' suser' __props__ w /\
  File._internal_init resource_name opts ct ds raw __props__ w
  = File._internal_init resource_name opts ct' ds' raw' __props__ w.
Proof.
  intros Hmerge Hid. split.
  - transitivity
      (registration
         (ProviderInit resource_name opts tok url user pass suser __props__)
         o __props__ w).
    + exact (construct_lookup
               (ProviderInit resource_name opts tok url user pass suser __props__)
               o w Hmerge Hid).
    + symmetry.
      exact (construct_lookup
               (ProviderInit resource_name opts tok' url' user' pass' suser' __props__)
               o w Hmerge Hid).
  - transitivity
      (registration (FileInit resource_name opts ct ds raw __props__) o __props__ w).
    + exact (construct_lookup
               (FileInit resource_name opts ct ds raw __props__) o w Hmerge Hid).
    + symmetry.
      exact (construct_lookup
               (FileInit resource_name opts ct' ds' raw' __props__) o w Hmerge Hid).
Qed.

Lemma lookup_ignores_field_arguments_witness :
  let opts := VOpts (ResourceOptions (VStr "id-7") None None) in
  @Provider._internal_init pulumi_sdk "p" opts (VStr "tok") (VStr "url")
    (VStr "root@pam") (VStr "pw") (VStr "root") VNone w_demo
  = @Provider._internal_init pulumi_sdk "p" opts VNone VNone VNone VNone VNone
      VNone w_demo /\
  @File._internal_init pulumi_sdk "p" opts (VStr "snippets") (VStr "ceph-ha")
    (VInt 1) VNone w_demo
  = @File._internal_init pulumi_sdk "p" opts VNone VNone VNone VNone w_demo.
Proof.
  intros opts.
  apply (@lookup_ignores_field_arguments pulumi_sdk "p" opts VNone
           (ResourceOptions (VStr "id-7") None None)).
  - reflexivity.
  - reflexivity.
Defined.

(** X9.  [File.get] for any id, [None] included.  With the Pulumi SDK's
    merge and caller options that are [None] or a [ResourceOptions]
    instance, the id handed to the host is the id argument, or, when that
    is [None], the id of the caller's options, or else the one of the
    defaults; when none of them carries an id the call fails, before any
    host call, with the [TypeError] about a [__props__] bag without an
    id, since [get] always passes its own bag. *)
Theorem file_get_for_any_id `{sdk : HostSDK}
    (resource_name : string) (id opts : PyVal) (d : ResourceOptionsT) (w : World) :
  merges_like_pulumi sdk ->
  keyword_call_has_no_args sdk ->
  get_resource_opts_defaults = VOpts d ->
  opts = VNone \/ isinstance_ResourceOptions opts = true ->
  let final :=
    merge_options d (merge_options (options_or_empty opts) (ResourceOptions_id id)) in
  ro_id final =
    (if is_None id
     then if is_None (ro_id (options_or_empty opts)) then ro_id d
          else ro_id (options_or_empty opts)
     else id) /\
  File.get resource_name id opts w =
    (if is_None (ro_id final)
     then (inl (TypeError "__props__ is only valid when passed in combination with a valid opts.id to get an existing resource"), w)
     else super_init CustomResource "pve:storage:File" resource_name lookup_bag
            (VOpts final) w).
Proof.
  intros Hsdk Hkw Hd Hopts final.
  assert (merge opts (VOpts (ResourceOptions_id id)) =
          inr (VOpts (merge_options (options_or_empty opts) (ResourceOptions_id id))))
    as Huser.
  { rewrite Hsdk. destruct Hopts as [-> | Hinst].
    - reflexivity.
    - destruct opts; try discriminate. reflexivity. }
  split.
  - unfold final, merge_options. simpl.
    destruct (is_None id) eqn:Hid; simpl.
    + destruct (is_None (ro_id (options_or_empty opts))); reflexivity.
    + rewrite Hid. reflexivity.
  - set (merged := merge_options (options_or_empty opts) (ResourceOptions_id id)) in *.
    clearbody merged.
    unfold File.get. rewrite Huser, bind_lift_inr.
    unfold File.__init__. rewrite Hkw. cbn [is_None negb].
    unfold File.call_internal_init.
    change (bind_arguments File.params []
              [("opts", VOpts merged);
               ("__props__",
                VObject "FileArgs"
                  (<["source_raw" := VNone]>
                     (<["datastore_id" := VNone]> (<["content_type" := VNone]> ∅))))])
      with (@inr exn _ (<["__props__" := lookup_bag]>
                          (<["opts" := VOpts merged]> (∅ : gmap string PyVal)))).
    rewrite bind_lift_inr.
    change (param _ "opts") with (VOpts merged).
    change (param _ "__props__") with lookup_bag.
    change (param _ "content_type") with VNone.
    change (param _ "datastore_id") with VNone.
    change (param _ "source_raw") with VNone.
    unfold File._internal_init.
    rewrite Hsdk, Hd.
    change (ResourceOptions_merge (VOpts d) (VOpts merged))
      with (@inr exn _ (VOpts (merge_options d merged))).
    rewrite bind_lift_inr. fold final.
    destruct (is_None (ro_id final)); reflexivity.
Qed.

Lemma file_get_for_any_id_witness :
  let final :=
    merge_options (ResourceOptions VNone None None)
      (merge_options (options_or_empty VNone) (ResourceOptions_id VNone)) in
  ro_id final =
    (if is_None VNone
     then if is_None (ro_id (options_or_empty VNone))
          then ro_id (ResourceOptions VNone None None : ResourceOptionsT)
          else ro_id (options_or_empty VNone)
     else VNone) /\
  @File.get pulumi_sdk "f" VNone VNone w_demo =
    (if is_None (ro_id final)
     then (inl (TypeError "__props__ is only valid when passed in combination with a valid opts.id to get an existing resource"), w_demo)
     else @super_init pulumi_sdk CustomResource "pve:storage:File" "f" lookup_bag
            (VOpts final) w_demo).
Proof.
  apply (@file_get_for_any_id pulumi_sdk "f" VNone VNone
           (ResourceOptions VNone None None) w_demo).
  - exact pulumi_sdk_merges_like_pulumi.
  - exact pulumi_sdk_keyword_call.
  - reflexivity.
  - left. reflexivity.
Defined.

(** X10.  A [ProviderArgs] object is a faithful record of its five
    values: each getter of a freshly constructed object returns the
    constructor argument of its field, and each setter yields the object
    the constructor would have built with that one argument replaced, so
    it changes its own field and no other. *)
Theorem ProviderArgs_is_a_record (t u us p su v : PyVal) :
  let self := ProviderArgs.__init__ t u us p su in
  (ProviderArgs.pve_token self = t /\ ProviderArgs.pve_url self = u /\
   ProviderArgs.pve_user self = us /\ ProviderArgs.ssh_pass self = p /\
   ProviderArgs.ssh_user self = su) /\
  ProviderArgs.set_pve_token self v = ProviderArgs.__init__ v u us p su /\
  ProviderArgs.set_pve_url self v = ProviderArgs.__init__ t v us p su /\
  ProviderArgs.set_pve_user self v = ProviderArgs.__init__ t u v p su /\
  ProviderArgs.set_ssh_pass self v = ProviderArgs.__init__ t u us v su /\
  ProviderArgs.set_ssh_user self v = ProviderArgs.__init__ t u us p v.
Proof.
  intros self. repeat split; reflexivity.
Qed.

(** X11.  A [FileArgs] object is a faithful record of its three values,
    in the same sense. *)
Theorem FileArgs_is_a_record (ct ds raw v : PyVal) :
  let self := FileArgs.__init__ ct ds raw in
  (FileArgs.content_type self = ct /\ FileArgs.datastore_id self = ds /\
   FileArgs.source_raw self = raw) /\
  FileArgs.set_content_type self v = FileArgs.__init__ v ds raw /\
  FileArgs.set_datastore_id self v = FileArgs.__init__ ct v raw /\
  FileArgs.set_source_raw self v = FileArgs.__init__ ct ds v.
Proof.
  intros self. repeat split; reflexivity.
Qed.

(** X12.  A value assigned through a setter of the argument object
    before the resource is constructed is the value the constructor works
    with: the construction is the call of [_internal_init] with that one
    field replaced, so a token or password assigned this way goes through
    the same secret wrapping and the same required-field checks. *)
Theorem setter_takes_effect_at_construction `{sdk : HostSDK}
    (resource_name : string) (opts t u us p su ct ds raw v : PyVal) :
  args_object_is_recognised sdk ->
  opts = VNone \/ isinstance_ResourceOptions opts = true ->
  let pargs := ProviderArgs.__init__ t u us p su in
  let fargs := FileArgs.__init__ ct ds raw in
  (Provider.__init__ resource_name [ProviderArgs.set_pve_token pargs v; opts] []
   = Provider._internal_init resource_name opts v u us p su VNone /\
   Provider.__init__ resource_name [ProviderArgs.set_pve_url pargs v; opts] []
   = Provider._internal_init resource_name opts t v us p su VNone /\
   Provider.__init__ resource_name [ProviderArgs.set_pve_user pargs v; opts] []
   = Provider._internal_init resource_name opts t u v p su VNone /\
   Provider.__init__ resource_name [ProviderArgs.set_ssh_pass pargs v; opts] []
   = Provider._internal_init resource_name opts t u us v su VNone /\
   Provider.__init__ resource_name [ProviderArgs.set_ssh_user pargs v; opts] []
   = Provider._internal_init resource_name opts t u us p v VNone) /\
  (File.__init__ resource_name [FileArgs.set_content_type fargs v; opts] []
   = File._internal_init resource_name opts v ds raw VNone /\
   File.__init__ resource_name [FileArgs.set_datastore_id fargs v; opts] []
   = File._internal_init resource_name opts ct v raw VNone /\
   File.__init__ resource_name [FileArgs.set_source_raw fargs v; opts] []
   = File._internal_init resource_name opts ct ds v VNone).
Proof.
  intros Hargs Hopts pargs fargs.
  split; repeat split;
    unfold Provider.__init__, File.__init__, pargs, fargs,
      ProviderArgs.set_pve_token, ProviderArgs.set_pve_url,
      ProviderArgs.set_pve_user, ProviderArgs.set_ssh_pass,
      ProviderArgs.set_ssh_user, FileArgs.set_content_type,
      FileArgs.set_datastore_id, FileArgs.set_source_raw,
      ProviderArgs.__init__, FileArgs.__init__, pulumi_set;
    rewrite (Hargs _ _ _ Hopts); reflexivity.
Qed.

Lemma setter_takes_effect_at_construction_witness :
  let pargs := ProviderArgs.__init__ VNone (VStr "https://pve:8006")
                 (VStr "root@pam") (VStr "pw") (VStr "root") in
  let fargs := FileArgs.__init__ (VStr "snippets") (VStr "ceph-ha") VNone in
  let v := VStr "late" in
  (@Provider.__init__ pulumi_sdk "r" [ProviderArgs.set_pve_token pargs v; VNone] []
   = @Provider._internal_init pulumi_sdk "r" VNone v (VStr "https://pve:8006")
       (VStr "root@pam") (VStr "pw") (VStr "root") VNone /\
   @Provider.__init__ pulumi_sdk "r" [ProviderArgs.set_pve_url pargs v; VNone] []
   = @Provider._internal_init pulumi_sdk "r" VNone VNone v
       (VStr "root@pam") (VStr "pw") (VStr "root") VNone /\
   @Provider.__init__ pulumi_sdk "r" [ProviderArgs.set_pve_user pargs v; VNone] []
   = @Provider._internal_init pulumi_sdk "r" VNone VNone (VStr "https://pve:8006")
       v (VStr "pw") (VStr "root") VNone /\
   @Provider.__init__ pulumi_sdk "r" [ProviderArgs.set_ssh_pass pargs v; VNone] []
   = @Provider._internal_init pulumi_sdk "r" VNone VNone (VStr "https://pve:8006")
       (VStr "root@pam") v (VStr "root") VNone /\
   @Provider.__init__ pulumi_sdk "r" [ProviderArgs.set_ssh_user pargs v; VNone] []
   = @Provider._internal_init pulumi_sdk "r" VNone VNone (VStr "https://pve:8006")
       (VStr "root@pam") (VStr "pw") v VNone) /\
  (@File.__init__ pulumi_sdk "r" [FileArgs.set_content_type fargs v; VNone] []
   = @File._internal_init pulumi_sdk "r" VNone v (VStr "ceph-ha") VNone VNone /\
   @File.__init__ pulumi_sdk "r" [FileArgs.set_datastore_id fargs v; VNone] []
   = @File._internal_init pulumi_sdk "r" VNone (VStr "snippets") v VNone VNone /\
   @File.__init__ pulumi_sdk "r" [FileArgs.set_source_raw fargs v; VNone] []
   = @File._internal_init pulumi_sdk "r" VNone (VStr "snippets") (VStr "ceph-ha")
       v VNone).
Proof.
  intros pargs fargs v.
  apply (@setter_takes_effect_at_construction pulumi_sdk "r" VNone VNone
           (VStr "https://pve:8006") (VStr "root@pam") (VStr "pw") (VStr "root")
           (VStr "snippets") (VStr "ceph-ha") VNone v).
  - exact pulumi_sdk_args_object.
  - left. reflexivity.
Defined.
